(** * meas_algorithms: dynamic detection threshold and reference-catalogue conversion

    A shallow embedding of
    - [python/lsst/meas/algorithms/dynamicDetection.py]
      ([DynamicDetectionTask.calculateThreshold], [detectFootprints],
      [tweakBackground]), and
    - [bin.src/convert_refcat_to_nJy.py] ([process_one], [is_flux_field]).

    Floating-point values are IEEE binary64 ([PrimFloat.float]; single
    precision pixels and columns are read as the binary64 values they
    denote, and arithmetic on single-precision pixels rounds its result to
    single precision), Python integers are [Z], Python exceptions are an explicit
    [Raise] outcome, and in-place mutation of the exposure is explicit state
    passing. The methods of the base detection task, the subtasks and the
    library calls are parameters of the task ([Collaborators]). *)

From Stdlib Require Import ZArith List String Ascii Bool Lia.
From Stdlib Require Import DecimalString DecimalZ.
From Stdlib Require Import PrimFloat FloatOps FloatAxioms SpecFloat Uint63.
Import ListNotations.

Set Warnings "-inexact-float".

Local Open Scope Z_scope.

(* ===================================================================== *)
(** ** numpy: the array operations the task uses *)
(* ===================================================================== *)

Module Np.

(** [np.isfinite], [np.isnan] on a float64 scalar. *)
Definition isfinite (x : float) : bool := PrimFloat.is_finite x.
Definition isnan (x : float) : bool := PrimFloat.is_nan x.

Definition float_of_nat (n : nat) : float :=
  PrimFloat.of_uint63 (Uint63.of_Z (Z.of_nat n)).

(** Element-wise binary operation on two columns of one catalogue. *)
Fixpoint map2 {A B C : Type} (f : A -> B -> C) (xs : list A) (ys : list B)
  : list C :=
  match xs, ys with
  | x :: xs', y :: ys' => f x y :: map2 f xs' ys'
  | _, _ => []
  end.

(** [a & b] on boolean arrays and [~a]. *)
Definition and_ (a b : list bool) : list bool := map2 andb a b.
Definition invert (a : list bool) : list bool := map negb a.

(** [a[mask]]: boolean-mask indexing. *)
Fixpoint select {A : Type} (xs : list A) (m : list bool) : list A :=
  match xs, m with
  | x :: xs', b :: m' => if b then x :: select xs' m' else select xs' m'
  | _, _ => []
  end.

(** [mask.sum()]: the number of [True] entries. *)
Definition count_true (m : list bool) : Z :=
  Z.of_nat (List.length (List.filter (fun b => b) m)).

(** Ascending sort of an array without NaN (ties, which only signed
    zeros produce, keep their relative order). *)
Fixpoint insert (x : float) (l : list float) : list float :=
  match l with
  | [] => [x]
  | y :: t => if (x <=? y)%float then x :: l else y :: insert x t
  end.

Definition sort (l : list float) : list float := fold_right insert [] l.

(** [np.mean] of a short one-dimensional float64 array (the median hands
    it one or two elements): the sum, accumulated from [0.0] in the order of
    the elements, over the element count. NaN on an empty array. *)
Definition mean (l : list float) : float :=
  match l with
  | [] => nan
  | _ :: _ => (fold_left PrimFloat.add l 0 / float_of_nat (List.length l))%float
  end.

(** [np.median]: the mean of the middle element (odd size) or of the two
    middle elements (even size) of the sorted array; NaN as soon as the
    array holds a NaN, and NaN on an empty array. *)
Definition median (a : list float) : float :=
  let s := sort a in
  let sz := List.length a in
  let index := (sz / 2)%nat in
  let middle :=
    if Nat.odd sz then firstn 1 (skipn index s)
    else firstn 2 (skipn (index - 1) s) in
  if existsb isnan a then nan else mean middle.

(** numpy's linear interpolation between two neighbouring order
    statistics. *)
Definition lerp (a b t : float) : float :=
  let diff := (b - a)%float in
  if (0.5 <=? t)%float then (b - diff * (1 - t))%float
  else (a + diff * t)%float.

(** [np.percentile(a, 25*k)] for a quartile [k] (method "linear"): the
    virtual index is [k*(n-1)/4]; its integer part selects the lower
    neighbour and its fractional part, a multiple of a quarter and so
    exact in binary64, is the interpolation weight. NaN as soon as the
    array holds a NaN. On an empty array numpy raises [IndexError]: [None]. *)
Definition quartile (k : nat) (a : list float) : option float :=
  match List.length a with
  | O => None
  | S m =>
      Some
        (if existsb isnan a then nan
         else
           let s := sort a in
           let pos := (k * m)%nat in
           let lo := (pos / 4)%nat in
           let hi := Nat.min (lo + 1) m in
           let gamma := (float_of_nat (pos mod 4) / 4)%float in
           lerp (nth lo s nan) (nth hi s nan) gamma)
  end.

(** [np.percentile(a, [25.0, 75.0])]; [None] when it raises [IndexError]. *)
Definition percentile_25_75 (a : list float) : option (float * float) :=
  match quartile 1 a, quartile 3 a with
  | Some lq, Some uq => Some (lq, uq)
  | _, _ => None
  end.

End Np.


(* ===================================================================== *)
(** ** Python outcomes and the data the task handles *)
(* ===================================================================== *)

(** The exceptions a call can end with: Python's own, and a failure of a
    collaborator outside this file, tagged with the phase that raised it. *)
Inductive exn : Type :=
| AssertionError
| ValueError
| OverflowError
| IndexError
| InvalidParameterError (what : string)
| UpstreamError (phase : string).

Inductive result (A : Type) : Type :=
| Ok (a : A)
| Raise (e : exn).

Arguments Ok {A} a.
Arguments Raise {A} e.

Definition is_raise {A : Type} (r : result A) : bool :=
  match r with Ok _ => false | Raise _ => true end.

(** [int(x)] on a float: truncation towards zero; [ValueError] on NaN and
    [OverflowError] on an infinity. *)
Definition py_int (x : float) : result Z :=
  match Prim2SF x with
  | S754_zero _ => Ok 0
  | S754_infinity _ => Raise OverflowError
  | S754_nan => Raise ValueError
  | S754_finite s m e =>
      let a := Z.shiftl (Zpos m) e in
      Ok (if s then - a else a)
  end.

(** Logging: [self.log.warn(fmt, args...)], [self.log.info(fmt, args...)]. *)
Inductive LogLevel : Type := INFO | WARN.
Inductive LogArg : Type := ArgInt (z : Z) | ArgFloat (x : float).
Record LogRecord : Type := mkLog {
  level : LogLevel;
  format : string;
  args : list LogArg
}.

Record BBox : Type := mkBBox { x0 : Z; y0 : Z; width : Z; height : Z }.

Record PeakRecord : Type := mkPeak { getFx : float; getFy : float }.

(** [peak.getF()]: the floating-point position of a peak. *)
Definition getF (p : PeakRecord) : float * float := (getFx p, getFy p).

Record Footprint : Type := mkFootprint {
  getSpans : list (Z * Z * Z);
  getPeaks : list PeakRecord
}.

(** One row of the catalogue built on [self.skyMeasurement.schema]: the
    footprint, the centroid slot, the sky coordinate, and the columns the
    threshold calculation reads. *)
Record SourceRecord : Type := mkSource {
  getFootprint : Footprint;
  centroid : float * float;
  coord : float * float;
  base_PsfFlux_instFlux : float;
  base_PsfFlux_instFluxErr : float;
  base_PsfFlux_area : float;
  base_PsfFlux_flag : bool;
  base_LocalBackground_instFlux : float;
  base_LocalBackground_flag : bool
}.

(** [skyFootprints.makeSources(catalog)]: one fresh record per footprint;
    a fresh record has NaN in its floating-point fields and cleared flags. *)
Definition makeSource (fp : Footprint) : SourceRecord :=
  mkSource fp (nan, nan) (nan, nan) nan nan nan false nan false.

Definition makeSources (fps : list Footprint) : list SourceRecord :=
  map makeSource fps.

Definition set_coord (s : SourceRecord) (c : float * float) : SourceRecord :=
  mkSource (getFootprint s) (centroid s) c
    (base_PsfFlux_instFlux s) (base_PsfFlux_instFluxErr s) (base_PsfFlux_area s)
    (base_PsfFlux_flag s) (base_LocalBackground_instFlux s)
    (base_LocalBackground_flag s).

Definition set_centroid (s : SourceRecord) (c : float * float) : SourceRecord :=
  mkSource (getFootprint s) c (coord s)
    (base_PsfFlux_instFlux s) (base_PsfFlux_instFluxErr s) (base_PsfFlux_area s)
    (base_PsfFlux_flag s) (base_LocalBackground_instFlux s)
    (base_LocalBackground_flag s).

(** The [Struct(multiplicative=..., additive=...)] of [calculateThreshold]. *)
Record ThresholdStruct : Type := mkThreshold {
  multiplicative : float;
  additive : float
}.

(** The pixel type of an afw image: C++ [float] ([ImageF], [ExposureF]) or
    [double] ([ImageD], [ExposureD]). *)
Inductive PixelType : Type := PixelF | PixelD.

(** The C++ conversion of a [double] to a [float]: rounding to binary32 (24
    bits of precision, exponents up to 128) to nearest, ties to even, with
    overflow to an infinity; given back as the binary64 value that holds the
    result exactly. *)
Definition to_single (x : float) : float :=
  match Prim2SF x with
  | S754_finite s m e => SF2Prim (binary_round 24 128 s m e)
  | _ => x
  end.

(** A value as a pixel of the given type holds it. *)
Definition round_pixel (t : PixelType) (x : float) : float :=
  match t with
  | PixelF => to_single x
  | PixelD => x
  end.

(** The exposure as the task mutates it: image and mask pixel arrays, and
    the pixel type of the image. The pixels of a [PixelF] image are kept as
    the binary64 values that single precision holds. *)
Record Exposure : Type := mkExposure {
  image : list (list float);
  mask : list (list Z);
  getBBox : BBox;
  pixelType : PixelType
}.

Definition set_mask (e : Exposure) (m : list (list Z)) : Exposure :=
  mkExposure (image e) m (getBBox e) (pixelType e).

Definition set_image (e : Exposure) (im : list (list float)) : Exposure :=
  mkExposure im (mask e) (getBBox e) (pixelType e).

(** Every pixel is a value of the image's pixel type. *)
Definition well_typed_pixels (e : Exposure) : bool :=
  forallb (forallb (fun v => Leibniz.eqb (round_pixel (pixelType e) v) v))
    (image e).

(** [image -= rhs] of afw, [Image<PixelT>::operator-=(PixelT const rhs)]: the
    scalar is converted to the pixel type, and each pixel becomes the
    difference in the arithmetic of the pixel type. (On two single-precision
    operands the binary64 difference rounded to single precision is the
    single-precision difference.) *)
Definition isub_scalar (e : Exposure) (rhs : float) : list (list float) :=
  let t := pixelType e in
  let rhs := round_pixel t rhs in
  map (map (fun v => round_pixel t (v - rhs)%float)) (image e).

(** A background model and the tuple appended to a [BackgroundList]. *)
Inductive InterpStyle : Type := CONSTANT | LINEAR | NATURAL_SPLINE | AKIMA_SPLINE.
Inductive UndersampleStyle : Type := THROW_EXCEPTION | REDUCE_INTERP_ORDER | INCREASE_NXNYSAMPLE.
Inductive ApproxStyle : Type := UNKNOWN | CHEBYSHEV.

Record BackgroundMI : Type := mkBackgroundMI {
  bg_bbox : BBox;
  statsImage : list (list (float * Z * float))
}.

Record BgData : Type := mkBgData {
  bg_model : BackgroundMI;
  interpStyle : InterpStyle;
  undersampleStyle : UndersampleStyle;
  approxStyle : ApproxStyle;
  approxOrderX : Z;
  approxOrderY : Z;
  approxWeighting : bool
}.

(** The detection results of [applyThreshold], with the [background]
    attribute that [detectFootprints] sets on them. *)
Record DetResults : Type := mkDetResults {
  positive : option (list Footprint);
  negative : option (list Footprint);
  numPos : Z;
  numNeg : Z;
  background : option (list BgData)
}.

Definition set_background (r : DetResults) (b : list BgData) : DetResults :=
  mkDetResults (positive r) (negative r) (numPos r) (numNeg r) (Some b).

Record DynamicDetectionConfig : Type := mkConfig {
  prelimThresholdFactor : float;
  doBackgroundTweak : bool;
  minNumSources : Z;
  thresholdValue : float;
  doTempLocalBackground : bool;
  reEstimateBackground : bool
}.

(* ===================================================================== *)
(** ** Mutable state and the monad of a task method *)
(* ===================================================================== *)

(** Calls made to the sky-object sampler and to the forced measurement, with
    the arguments they were handed (a record kept beside the program state,
    so that what a collaborator saw can be stated). *)
Inductive Call : Type :=
| CallSkyObjects (m : list (list Z)) (seed : Z)
| CallSkyMeasurement (catalog : list SourceRecord).

Record State : Type := mkState {
  exposure : Exposure;
  log : list LogRecord;
  calls : list Call
}.

(** A method body: it reads and writes the state and ends with a value or
    with an exception; what it wrote before raising stays written. *)
Definition M (A : Type) : Type := State -> result A * State.

Definition ret {A : Type} (a : A) : M A := fun s => (Ok a, s).

Definition raise {A : Type} (e : exn) : M A := fun s => (Raise e, s).

Definition bind {A B : Type} (m : M A) (f : A -> M B) : M B :=
  fun s =>
    match m s with
    | (Ok a, s') => f a s'
    | (Raise e, s') => (Raise e, s')
    end.

Declare Scope task_scope.
Delimit Scope task_scope with task.
Notation "x <- c ;; k" := (bind c (fun x => k))
  (at level 61, c at next level, right associativity) : task_scope.
Notation "c ;;; k" := (bind c (fun _ => k))
  (at level 61, right associativity) : task_scope.

(** [try: body finally: fin]. *)
Definition try_finally {A : Type} (body : M A) (fin : M unit) : M A :=
  fun s =>
    let (r, s1) := body s in
    match fin s1 with
    | (Ok _, s2) => (r, s2)
    | (Raise e, s2) => (Raise e, s2)
    end.

Definition lift {A : Type} (r : result A) : M A := fun s => (r, s).

Definition get_exposure : M Exposure := fun s => (Ok (exposure s), s).

Definition put_exposure (e : Exposure) : M unit :=
  fun s => (Ok tt, mkState e (log s) (calls s)).

Definition get_mask : M (list (list Z)) := fun s => (Ok (mask (exposure s)), s).

Definition put_mask (m : list (list Z)) : M unit :=
  fun s => (Ok tt, mkState (set_mask (exposure s) m) (log s) (calls s)).

Definition put_image (im : list (list float)) : M unit :=
  fun s => (Ok tt, mkState (set_image (exposure s) im) (log s) (calls s)).

Definition emit (r : LogRecord) : M unit :=
  fun s => (Ok tt, mkState (exposure s) (log s ++ [r]) (calls s)).

Definition record_call (c : Call) : M unit :=
  fun s => (Ok tt, mkState (exposure s) (log s) (calls s ++ [c])).

(** A collaborator that works on the mask in place: the mask it leaves is
    kept whether it returns or raises. *)
Definition on_mask {A : Type} (f : list (list Z) -> list (list Z) * result A)
  : M A :=
  fun s =>
    let (m', r) := f (mask (exposure s)) in
    (r, mkState (set_mask (exposure s) m') (log s) (calls s)).

(** The same for a collaborator that works on the whole exposure. *)
Definition on_exposure {A : Type} (f : Exposure -> Exposure * result A) : M A :=
  fun s =>
    let (e', r) := f (exposure s) in
    (r, mkState e' (log s) (calls s)).

(** [for x in xs: body(x)], collecting the updated elements. *)
Fixpoint for_each {A B : Type} (body : A -> M B) (xs : list A) : M (list B) :=
  match xs with
  | [] => ret []
  | x :: xs' =>
      bind (body x) (fun y => bind (for_each body xs') (fun ys => ret (y :: ys)))
  end.

Definition py_assert (b : bool) : M unit :=
  if b then ret tt else raise AssertionError.

(* ===================================================================== *)
(** ** DynamicDetectionTask *)
(* ===================================================================== *)

Section DynamicDetectionTask.

Local Open Scope task_scope.

(** Opaque values of the collaborators: a PSF model and a convolved
    ("middle") image. *)
Variables Psf Middle : Type.

(** The methods inherited from [SourceDetectionTask], the two subtasks and
    the library calls, none of which is defined in [dynamicDetection.py].
    A collaborator that mutates an argument in place returns the mutated
    value next to its outcome. *)
Record Collaborators : Type := mkCollaborators {
  getPsf : Exposure -> option float -> result Psf;
  array_sum : list (list float) -> float;
  getPlaneBitMask : list string -> Z;
  clearMask : list (list Z) -> list (list Z) * result unit;
  convolveImage : Exposure -> Psf -> bool -> result (Middle * float);
  applyThreshold : Middle -> BBox -> float -> result DetResults;
  finalizeFootprints :
    list (list Z) -> DetResults -> float -> float ->
    list (list Z) * result DetResults;
  skyObjects_run : list (list Z) -> Z -> result (list Footprint);
  pixelToSky : Exposure -> float * float -> float * float;
  skyMeasurement_run :
    list SourceRecord -> Exposure -> result (list SourceRecord);
  tempWideBackground_enter : Exposure -> Exposure * result unit;
  tempWideBackground_exit : Exposure -> Exposure;
  applyTempLocalBackground :
    Exposure -> Middle -> DetResults -> result (Middle * DetResults);
  clearUnwantedResults :
    list (list Z) -> DetResults -> list (list Z) * result DetResults;
  run_reEstimateBackground :
    Exposure -> list BgData -> Exposure * result (list BgData);
  display : Exposure -> DetResults -> Middle -> result unit
}.

Variable ext : Collaborators.
Variable config : DynamicDetectionConfig.

(** *** calculateThreshold *)

(** [source.updateCoord(exposure.getWcs())]: the sky coordinate of the
    centroid slot under the exposure's WCS. *)
Definition updateCoord (e : Exposure) (source : SourceRecord) : SourceRecord :=
  set_coord source (pixelToSky ext e (centroid source)).

(** The loop over the new catalogue: each source must have exactly one
    peak, whose position becomes the centroid. *)
Definition set_sky_centroid (source : SourceRecord) : M SourceRecord :=
  let peaks := getPeaks (getFootprint source) in
  py_assert (Nat.eqb (List.length peaks) 1) ;;;
  match peaks with
  | p :: _ =>
      e <- get_exposure ;;
      ret (updateCoord e (set_centroid source (getF p)))
  | [] => raise AssertionError
  end.

(** [~flag & ~flag & isfinite(fluxes) & isfinite(area) & isfinite(bg)]. *)
Definition good_mask (catalog : list SourceRecord) : list bool :=
  let fluxes := map base_PsfFlux_instFlux catalog in
  let area := map base_PsfFlux_area catalog in
  let bg := map base_LocalBackground_instFlux catalog in
  Np.and_
    (Np.and_
       (Np.and_
          (Np.and_ (Np.invert (map base_PsfFlux_flag catalog))
                   (Np.invert (map base_LocalBackground_flag catalog)))
          (map Np.isfinite fluxes))
       (map Np.isfinite area))
    (map Np.isfinite bg).

(** The statistics on the measured catalogue (the part of
    [calculateThreshold] after the forced photometry). *)
Definition threshold_from_catalog (catalog : list SourceRecord)
  : M ThresholdStruct :=
  let fluxes := map base_PsfFlux_instFlux catalog in
  let area := map base_PsfFlux_area catalog in
  let bg := map base_LocalBackground_instFlux catalog in
  let good := good_mask catalog in
  if Np.count_true good <? minNumSources config then
    emit (mkLog WARN
            "Insufficient good flux measurements (%d < %d) for dynamic threshold calculation"
            [ArgInt (Np.count_true good); ArgInt (minNumSources config)]) ;;;
    ret (mkThreshold 1.0 0.0)
  else
    let bgMedian := Np.median (Np.select (Np.map2 PrimFloat.div fluxes area) good) in
    match
      Np.percentile_25_75
        (Np.select (Np.map2 PrimFloat.sub fluxes (Np.map2 PrimFloat.mul bg area)) good)
    with
    | None => raise IndexError
    | Some (lq, uq) =>
        let stdevMeas := (0.741 * (uq - lq))%float in
        let medianError :=
          Np.median (Np.select (map base_PsfFlux_instFluxErr catalog) good) in
        ret (mkThreshold (medianError / stdevMeas)%float bgMedian)
    end.

Definition calculateThreshold (seed : Z) (sigma : option float)
  : M ThresholdStruct :=
  (* Make a catalog of sky objects *)
  m <- get_mask ;;
  record_call (CallSkyObjects m seed) ;;;
  fp <- lift (skyObjects_run ext m seed) ;;
  catalog <- for_each set_sky_centroid (makeSources fp) ;;
  (* Forced photometry on sky objects *)
  e <- get_exposure ;;
  record_call (CallSkyMeasurement catalog) ;;;
  catalog <- lift (skyMeasurement_run ext catalog e) ;;
  (* Calculate new threshold *)
  threshold_from_catalog catalog.

(** *** tweakBackground *)

Definition tweakBackground (bgLevel : float) (bgList : option (list BgData))
  : M (BackgroundMI * option (list BgData)) :=
  emit (mkLog INFO "Tweaking background by %f to match sky photometry"
          [ArgFloat bgLevel]) ;;;
  e <- get_exposure ;;
  put_image (isub_scalar e bgLevel) ;;;
  (* MaskedImageF(1, 1), set(bgLevel, 0, bgLevel): single-precision image and
     variance planes *)
  let bgStats := [[(to_single bgLevel, 0, to_single bgLevel)]] in
  let bg := mkBackgroundMI (getBBox e) bgStats in
  let bgData := mkBgData bg LINEAR REDUCE_INTERP_ORDER UNKNOWN 0 0 false in
  ret (bg, match bgList with
           | Some l => Some (l ++ [bgData])
           | None => None
           end).

(** *** detectFootprints *)

(** The random seed: the exposure identifier when there is one, else the
    integer part of the sum of the image, modulo [2**31 - 1]. *)
Definition compute_seed (expId : option Z) : M Z :=
  e <- get_exposure ;;
  v <- match expId with
       | Some i => ret i
       | None => lift (py_int (array_sum ext (image e)))
       end ;;
  ret (v mod (2 ^ 31 - 1)).

(** The body of the [try] block: the preliminary detection pass and the
    threshold calculation. It returns [(bgLevel, factor)]. *)
Definition preliminary_body (psf : Psf) (doSmooth : bool) (seed : Z)
  : M (float * float) :=
  on_mask (clearMask ext) ;;;
  e <- get_exposure ;;
  convolveResults <- lift (convolveImage ext e psf doSmooth) ;;
  tweakDetResults <-
    lift (applyThreshold ext (fst convolveResults) (getBBox e)
            (prelimThresholdFactor config)) ;;
  on_mask (fun m => finalizeFootprints ext m tweakDetResults
                      (snd convolveResults) (prelimThresholdFactor config)) ;;;
  (* Calculate the proper threshold *)
  threshResults <- calculateThreshold seed (Some (snd convolveResults)) ;;
  let bgLevel := additive threshResults in
  let factor := multiplicative threshResults in
  emit (mkLog INFO "Modifying configured detection threshold by factor %f to %f"
          [ArgFloat factor; ArgFloat (factor * thresholdValue config)%float]) ;;;
  ret (bgLevel, factor).

(** [originalMask = mask.copy(); try: ... finally: mask[:] = originalMask]. *)
Definition preliminary_phase (psf : Psf) (doSmooth : bool) (seed : Z)
  : M (float * float) :=
  originalMask <- get_mask ;;
  try_finally (preliminary_body psf doSmooth seed) (put_mask originalMask).

(** [background = BackgroundList(); if doBackgroundTweak: tweakBackground(...)]. *)
Definition background_tweak (bgLevel : float) : M (list BgData) :=
  let background := [] in
  if doBackgroundTweak config then
    r <- tweakBackground bgLevel (Some background) ;;
    ret (match snd r with Some l => l | None => background end)
  else ret background.

(** [with self.tempWideBackgroundContext(exposure): body]. *)
Definition with_tempWideBackgroundContext {A : Type} (body : M A) : M A :=
  on_exposure (tempWideBackground_enter ext) ;;;
  try_finally body
    (on_exposure (fun e => (tempWideBackground_exit ext e, Ok tt))).

Definition final_detection (psf : Psf) (doSmooth : bool) (factor : float)
           (background : list BgData) : M (Middle * DetResults) :=
  with_tempWideBackgroundContext
    (e <- get_exposure ;;
     convolveResults <- lift (convolveImage ext e psf doSmooth) ;;
     let middle := fst convolveResults in
     let sigma := snd convolveResults in
     results <- lift (applyThreshold ext middle (getBBox e) factor) ;;
     let results := set_background results background in
     mr <- (if doTempLocalBackground config
            then lift (applyTempLocalBackground ext e middle results)
            else ret (middle, results)) ;;
     results <-
       on_mask (fun m => finalizeFootprints ext m (snd mr) sigma factor) ;;
     results <- on_mask (fun m => clearUnwantedResults ext m results) ;;
     ret (fst mr, results)).

(** The final pass: from [if clearMask:] to [return results]. *)
Definition final_pass (psf : Psf) (doSmooth doClearMask : bool)
           (factor : float) (background_ : list BgData) : M DetResults :=
  (if doClearMask then on_mask (clearMask ext)
   else
     m <- get_mask ;;
     let oldDetected :=
       map (map (fun v =>
                   Z.land v (getPlaneBitMask ext ["DETECTED"; "DETECTED_NEGATIVE"]%string)))
           m in
     ret tt) ;;;
  mr <- final_detection psf doSmooth factor background_ ;;
  let middle := fst mr in
  let results := snd mr in
  results <-
    (if reEstimateBackground config then
       bgl <- on_exposure (fun e =>
                 run_reEstimateBackground ext e
                   (match background results with Some l => l | None => [] end)) ;;
       ret (set_background results bgl)
     else ret results) ;;
  e <- get_exposure ;;
  lift (display ext e results middle) ;;;
  ret results.

(** What follows the [finally]: background tweak, then the final pass. *)
Definition after_preliminary (psf : Psf) (doSmooth doClearMask : bool)
           (r : float * float) : M DetResults :=
  let bgLevel := fst r in
  let factor := snd r in
  background_ <- background_tweak bgLevel ;;
  final_pass psf doSmooth doClearMask factor background_.

Definition detectFootprints (doSmooth : bool) (sigma : option float)
           (doClearMask : bool) (expId : option Z) : M DetResults :=
  e <- get_exposure ;;
  psf <- lift (getPsf ext e sigma) ;;
  seed <- compute_seed expId ;;
  r <- preliminary_phase psf doSmooth seed ;;
  after_preliminary psf doSmooth doClearMask r.

End DynamicDetectionTask.

Arguments mkCollaborators {Psf Middle}.
Arguments getPsf {Psf Middle} c _ _.
Arguments array_sum {Psf Middle} c _.
Arguments getPlaneBitMask {Psf Middle} c _.
Arguments clearMask {Psf Middle} c _.
Arguments convolveImage {Psf Middle} c _ _ _.
Arguments applyThreshold {Psf Middle} c _ _ _.
Arguments finalizeFootprints {Psf Middle} c _ _ _ _.
Arguments skyObjects_run {Psf Middle} c _ _.
Arguments pixelToSky {Psf Middle} c _ _.
Arguments skyMeasurement_run {Psf Middle} c _ _.
Arguments updateCoord {Psf Middle} ext e source.
Arguments set_sky_centroid {Psf Middle} ext source _.
Arguments calculateThreshold {Psf Middle} ext config seed sigma _.
Arguments compute_seed {Psf Middle} ext expId _.
Arguments preliminary_body {Psf Middle} ext config psf doSmooth seed _.
Arguments preliminary_phase {Psf Middle} ext config psf doSmooth seed _.
Arguments with_tempWideBackgroundContext {Psf Middle} ext {A} body _.
Arguments final_detection {Psf Middle} ext config psf doSmooth factor background _.
Arguments final_pass {Psf Middle} ext config psf doSmooth doClearMask factor
  background_ _.
Arguments after_preliminary {Psf Middle} ext config psf doSmooth doClearMask r _.
Arguments detectFootprints {Psf Middle} ext config doSmooth sigma doClearMask expId _.

(* ===================================================================== *)
(** ** The estimator as the specification words it *)
(* ===================================================================== *)

(** A usable record: both flags clear and flux, area and background finite. *)
Definition is_good (r : SourceRecord) : bool :=
  negb (base_PsfFlux_flag r) && negb (base_LocalBackground_flag r)
  && Np.isfinite (base_PsfFlux_instFlux r)
  && Np.isfinite (base_PsfFlux_area r)
  && Np.isfinite (base_LocalBackground_instFlux r).

Definition filtered (catalog : list SourceRecord) : list SourceRecord :=
  List.filter is_good catalog.

Definition good_count (catalog : list SourceRecord) : Z :=
  Z.of_nat (List.length (filtered catalog)).

Definition flux_per_area (r : SourceRecord) : float :=
  (base_PsfFlux_instFlux r / base_PsfFlux_area r)%float.

Definition background_subtracted (r : SourceRecord) : float :=
  (base_PsfFlux_instFlux r
   - base_LocalBackground_instFlux r * base_PsfFlux_area r)%float.

(** Interquartile range of a non-empty sample: 75th minus 25th
    percentile. *)
Definition iqr (xs : list float) : float :=
  match Np.percentile_25_75 xs with
  | Some (lq, uq) => (uq - lq)%float
  | None => nan
  end.

(** Additive term: the median of flux/area over the filtered records. *)
Definition additive_term (catalog : list SourceRecord) : float :=
  Np.median (map flux_per_area (filtered catalog)).

(** Robust standard deviation: a conversion constant times the IQR of the
    background-subtracted fluxes of the filtered records. *)
Definition robust_stdev (k : float) (catalog : list SourceRecord) : float :=
  (k * iqr (map background_subtracted (filtered catalog)))%float.

Definition median_error (catalog : list SourceRecord) : float :=
  Np.median (map base_PsfFlux_instFluxErr (filtered catalog)).

(** Multiplicative term: median flux uncertainty over robust deviation. *)
Definition multiplicative_term (k : float) (catalog : list SourceRecord) : float :=
  (median_error catalog / robust_stdev k catalog)%float.

(** The correction of the specification text, with its constant 0.7413. *)
Definition spec_correction (catalog : list SourceRecord) : ThresholdStruct :=
  mkThreshold (multiplicative_term 0.7413 catalog) (additive_term catalog).

(** The same with the constant 0.741. *)
Definition code_correction (catalog : list SourceRecord) : ThresholdStruct :=
  mkThreshold (multiplicative_term 0.741 catalog) (additive_term catalog).

Definition identity_correction : ThresholdStruct := mkThreshold 1.0 0.0.

Definition insufficient_warning (n minCount : Z) : LogRecord :=
  mkLog WARN
    "Insufficient good flux measurements (%d < %d) for dynamic threshold calculation"
    [ArgInt n; ArgInt minCount].

(** The catalogue handed to the forced measurement when every footprint has
    exactly one peak. *)
Definition sky_source {Psf Middle : Type} (ext : Collaborators Psf Middle)
           (e : Exposure) (fp : Footprint) : SourceRecord :=
  updateCoord ext e
    (set_centroid (makeSource fp)
       (getF (hd (mkPeak nan nan) (getPeaks fp)))).

Definition sky_catalog {Psf Middle : Type} (ext : Collaborators Psf Middle)
           (e : Exposure) (fps : list Footprint) : list SourceRecord :=
  map (sky_source ext e) fps.

(** The state in which the statistics run: the two collaborator calls
    have been recorded, nothing else has changed. *)
Definition after_measurement {Psf Middle : Type} (ext : Collaborators Psf Middle)
           (seed : Z) (fps : list Footprint) (st : State) : State :=
  mkState (exposure st) (log st)
    ((calls st ++ [CallSkyObjects (mask (exposure st)) seed])
       ++ [CallSkyMeasurement (sky_catalog ext (exposure st) fps)]).

Definition one_peak (fp : Footprint) : bool :=
  Nat.eqb (List.length (getPeaks fp)) 1.

(** An abnormal outcome that a caller can see: an exception, or a
    warning-level record added to the log. *)
Definition surfaced {A : Type} (before : State) (out : result A * State) : bool :=
  is_raise (fst out)
  || existsb (fun r => match level r with WARN => true | INFO => false end)
       (skipn (List.length (log before)) (log (snd out))).

(** The list entry for a constant background of level [bgLevel]: a 1x1
    single-precision statistics image holding [bgLevel] (and variance
    [bgLevel]), with linear interpolation. *)
Definition constant_background (b : BBox) (bgLevel : float) : BgData :=
  mkBgData (mkBackgroundMI b [[(to_single bgLevel, 0, to_single bgLevel)]])
    LINEAR REDUCE_INTERP_ORDER UNKNOWN 0 0 false.

(** The detection bits of a mask under a bit mask. *)
Definition detected_bits (bits : Z) (m : list (list Z)) : list (list Z) :=
  map (map (fun v => Z.land v bits)) m.

(** The masks the sampler was handed by the calls made after [before]. *)
Definition sampler_calls (before : State) (after : State) : list (list (list Z) * Z) :=
  flat_map (fun c => match c with
                     | CallSkyObjects m seed => [(m, seed)]
                     | CallSkyMeasurement _ => []
                     end)
           (skipn (List.length (calls before)) (calls after)).


(** Equality test on masks. *)
Definition same_mask (a b : list (list Z)) : bool :=
  if list_eq_dec (list_eq_dec Z.eq_dec) a b then true else false.


Definition no_call (c : Call) : Prop := False.

(** [writes P m]: the method [m] reads nothing but the exposure; started on
    an exposure it always ends with the same outcome and the same exposure,
    appends the same records to the log and the same calls to the call
    record, and every call it adds satisfies [P]. *)
Definition writes {A : Type} (P : Call -> Prop) (m : M A) : Prop :=
  forall e : Exposure,
  exists (r : result A) (e' : Exposure) (nl : list LogRecord) (nc : list Call),
    Forall P nc
    /\ forall l c, m (mkState e l c) = (r, mkState e' (l ++ nl) (c ++ nc)).

(* ===================================================================== *)
(** ** A concrete set of collaborators, for worked runs *)
(* ===================================================================== *)

Module Example.

(** Mask planes: DETECTED is bit 5 and DETECTED_NEGATIVE bit 6. *)
Definition plane_bit (name : string) : Z :=
  if String.eqb name "DETECTED" then 32
  else if String.eqb name "DETECTED_NEGATIVE" then 64
  else 0.

Definition plane_bit_mask (names : list string) : Z :=
  fold_left Z.lor (map plane_bit names) 0.

Definition detected : Z := plane_bit_mask ["DETECTED"; "DETECTED_NEGATIVE"]%string.

(** Clears the two detection planes, as the detection task's [clearMask]. *)
Definition clear_detected (m : list (list Z)) : list (list Z) * result unit :=
  (map (map (fun v => Z.ldiff v detected)) m, Ok tt).

Definition in_span (y x : Z) (sp : Z * Z * Z) : bool :=
  let '(sy, sx0, sx1) := sp in
  (sy =? y) && (sx0 <=? x) && (x <=? sx1).

Definition covered (fps : list Footprint) (y x : Z) : bool :=
  existsb (fun fp => existsb (in_span y x) (getSpans fp)) fps.

Fixpoint mapi {A B : Type} (f : Z -> A -> B) (i : Z) (l : list A) : list B :=
  match l with
  | [] => []
  | a :: t => f i a :: mapi f (i + 1) t
  end.

(** Sets DETECTED on the pixels of the positive footprints. *)
Definition mark_detected (m : list (list Z)) (r : DetResults)
           (sigma factor : float) : list (list Z) * result DetResults :=
  let fps := match positive r with Some l => l | None => [] end in
  (mapi (fun y row =>
           mapi (fun x v => if covered fps y x then Z.lor v 32 else v) 0 row)
        0 m,
   Ok r).

(** One footprint per pixel above [100 * factor]. *)
Definition threshold_pixels (middle : list (list float)) (b : BBox)
           (factor : float) : result DetResults :=
  let hits :=
    List.concat
      (mapi (fun y row =>
               List.concat
                 (mapi (fun x v =>
                          if (100 * factor <? v)%float
                          then [mkFootprint [(y, x, x)] []]
                          else [])
                       0 row))
            0 middle) in
  Ok (mkDetResults (Some hits) None (Z.of_nat (List.length hits)) 0 None).

Record Photometry : Type := mkPhot {
  instFlux : float;
  instFluxErr : float;
  area : float;
  flux_flag : bool;
  localBackground : float;
  localBackground_flag : bool
}.

Definition measure (s : SourceRecord) (p : Photometry) : SourceRecord :=
  mkSource (getFootprint s) (centroid s) (coord s)
    (instFlux p) (instFluxErr p) (area p) (flux_flag p)
    (localBackground p) (localBackground_flag p).

Definition sum_pixels (im : list (list float)) : float :=
  fold_left PrimFloat.add (List.concat im) 0%float.

(** Collaborators whose sampler proposes [fps], whose forced measurement
    reports [phot], row by row, and whose [finalizeFootprints] is
    [finalize]. *)
Definition collaborators_with
           (finalize : list (list Z) -> DetResults -> float -> float ->
                       list (list Z) * result DetResults)
           (fps : list Footprint) (phot : list Photometry)
  : Collaborators unit (list (list float)) :=
  mkCollaborators
    (fun _ _ => Ok tt)
    sum_pixels
    plane_bit_mask
    clear_detected
    (fun e _ _ => Ok (image e, 2%float))
    threshold_pixels
    finalize
    (fun _ _ => Ok fps)
    (fun _ c => c)
    (fun catalog _ => Ok (Np.map2 measure catalog phot))
    (fun e => (e, Ok tt))
    (fun e => e)
    (fun _ middle r => Ok (middle, r))
    (fun m r => (m, Ok r))
    (fun e l => (e, Ok l))
    (fun _ _ _ => Ok tt).

Definition collaborators (fps : list Footprint) (phot : list Photometry)
  : Collaborators unit (list (list float)) :=
  collaborators_with mark_detected fps phot.

(** A [finalizeFootprints] that marks the mask and then fails. *)
Definition mark_then_fail (m : list (list Z)) (r : DetResults)
           (sigma factor : float) : list (list Z) * result DetResults :=
  (fst (mark_detected m r sigma factor), Raise (UpstreamError "finalizeFootprints")).

Definition sky_footprint (x : Z) : Footprint :=
  mkFootprint [(0, x, x)] [mkPeak (Np.float_of_nat (Z.to_nat x)) 0%float].

Definition sky_footprints (n : nat) : list Footprint :=
  map (fun i => sky_footprint (Z.of_nat i)) (seq 0 n).

(** A clean measurement of flux [f] with uncertainty [err], unit aperture
    area and no local background. *)
Definition clean (f err : float) : Photometry :=
  mkPhot f err 1%float false 0%float false.

Definition failed (f err : float) : Photometry :=
  mkPhot f err 1%float true 0%float false.

Definition default_config : DynamicDetectionConfig :=
  mkConfig 0.5%float true 10 5%float false false.

Definition no_tweak_config : DynamicDetectionConfig :=
  mkConfig 0.5%float false 10 5%float false false.

(** A 2x3 single-precision exposure with one bright pixel and a stale
    DETECTED bit. *)
Definition exposure0 : Exposure :=
  mkExposure [[1; 2; 300]; [4; 5; 6]]%float [[0; 32; 0]; [0; 0; 1]]
             (mkBBox 0 0 3 2) PixelF.

Definition state0 : State := mkState exposure0 [] [].

(** The same exposure in a task that has logged and sampled before. *)
Definition state1 : State :=
  mkState exposure0 [mkLog INFO "earlier" []] [CallSkyObjects [] 7].

(** Thirteen clean measurements with fluxes 0..12 and uncertainty 4.446. *)
Definition thirteen : list Photometry :=
  map (fun i => clean (Np.float_of_nat i) 4.446%float) (seq 0 13).

(** Thirteen clean measurements that all report the same flux. *)
Definition constant13 : list Photometry :=
  map (fun _ => clean 7%float 2%float) (seq 0 13).

(** Five clean measurements and eight failed ones. *)
Definition five_good : list Photometry :=
  map (fun i => clean (Np.float_of_nat i) 1%float) (seq 0 5)
  ++ map (fun i => failed (Np.float_of_nat i) 1%float) (seq 0 8).

Definition all_failed : list Photometry :=
  map (fun i => failed (Np.float_of_nat i) 1%float) (seq 0 13).

(** The catalogue the forced measurement hands back for [phot]. *)
Definition measured (fps : list Footprint) (phot : list Photometry)
  : list SourceRecord :=
  Np.map2 measure (sky_catalog (collaborators fps phot) exposure0 fps) phot.

(** A sampler proposal in which the second footprint has no peak. *)
Definition peakless : list Footprint :=
  [sky_footprint 0; mkFootprint [(0, 1, 1)] []; sky_footprint 2].

End Example.


(* ===================================================================== *)
(** ** convert_refcat_to_nJy: process_one *)
(* ===================================================================== *)

Module RefcatConvert.

Local Open Scope string_scope.

(** Membership of a character in the argument of [str.strip]. *)
Fixpoint in_chars (c : ascii) (chars : string) : bool :=
  match chars with
  | EmptyString => false
  | String d rest => Ascii.eqb c d || in_chars c rest
  end.

(** [s.lstrip(chars)]: drop leading characters that occur in [chars]. *)
Fixpoint lstrip (chars s : string) : string :=
  match s with
  | EmptyString => EmptyString
  | String c t => if in_chars c chars then lstrip chars t else s
  end.

(** [s.rstrip(chars)]: drop trailing characters that occur in [chars]. *)
Fixpoint rstrip (chars s : string) : string :=
  match s with
  | EmptyString => EmptyString
  | String c t =>
      match rstrip chars t with
      | EmptyString => if in_chars c chars then EmptyString else String c EmptyString
      | r => String c r
      end
  end.

(** [s.strip(chars)]: Python strips the set of characters [chars] from
    both ends of [s]. *)
Definition py_strip (s chars : string) : string := rstrip chars (lstrip chars s).

(** [s.endswith(suffix)]: some tail of [s] is [suffix]. *)
Fixpoint endswith (s suffix : string) : bool :=
  if String.eqb s suffix then true
  else match s with
       | EmptyString => false
       | String _ t => endswith t suffix
       end.

(** A schema field (name, documentation, units) and a catalogue as the
    sequence of its fields, each with its column of values. The flux columns
    are double-precision. *)
Record Field : Type := mkField {
  getName : string;
  getDoc : string;
  getUnits : string
}.

Definition Catalog : Type := list (Field * list float).

(** [is_flux_field(name, units)], nested in [process_one]: the units it
    tests are the loop variable [oldUnits] of the enclosing function. *)
Definition is_flux_field (oldUnits : string) (name units : string) : bool :=
  let unitsCheck :=
    String.eqb oldUnits "Jy" || String.eqb oldUnits "" || String.eqb oldUnits "?" in
  let isFlux := endswith name "_flux" in
  let isFluxSigma := endswith name "_fluxSigma" in
  let isFluxErr := endswith name "_fluxErr" in
  (isFlux || isFluxSigma || isFluxErr) && unitsCheck.

(** The name given to a remapped field. *)
Definition new_name (oldName : string) : string :=
  if endswith oldName "_fluxSigma"
  then py_strip oldName "_fluxSigma" ++ "_fluxErr"
  else oldName.

(** One turn of the loop over [catalog.schema]: the output field and, for a
    flux field, the pair appended to [mapped_fluxes]. *)
Definition map_field (field : Field) : Field * list (string * string) :=
  let oldName := getName field in
  let oldUnits := getUnits field in
  if is_flux_field oldUnits oldName oldUnits then
    let units := "nJy" in
    (mkField (new_name oldName) (getDoc field) units, [(oldName, oldUnits)])
  else (field, []).

(** The loop, with the output schema of the mapper and [mapped_fluxes] as
    its state. The schema mapper refuses to add a second output field of the
    same name. *)
Fixpoint add_mappings (out : list Field) (mapped_fluxes : list (string * string))
         (schema : list Field) : result (list Field * list (string * string)) :=
  match schema with
  | [] => Ok (out, mapped_fluxes)
  | field :: rest =>
      let newField := fst (map_field field) in
      if existsb (fun g => String.eqb (getName g) (getName newField)) out
      then Raise (InvalidParameterError (getName newField))
      else add_mappings (out ++ [newField])%list
             (mapped_fluxes ++ snd (map_field field))%list rest
  end.

Definition scaled_name (name : string) : bool :=
  endswith name "_flux" || endswith name "_fluxErr".

(** The write phase: [output.extend(catalog, mapper=mapper)] copies each
    column under its output field, then every column whose output name ends
    in [_flux] or [_fluxErr] is multiplied by [1e9]. *)
Definition write_output (newSchema : list Field) (catalog : Catalog) : Catalog :=
  map (fun fc : Field * list float =>
         if scaled_name (getName (fst fc))
         then (fst fc, map (fun v => (v * 1e9)%float) (snd fc))
         else fc)
      (Np.map2 (fun f (fc : Field * list float) => (f, snd fc)) newSchema catalog).

(** [process_one(filename, write)] on the catalogue read from [filename]:
    the status lines and, when the file is rewritten, its new content. *)
Definition process_one (filename : string) (catalog : Catalog) (write : bool)
  : result (list string * option Catalog) :=
  let status := ["Reading: " ++ filename] in
  match add_mappings [] [] (map fst catalog) with
  | Raise e => Raise e
  | Ok (newSchema, mapped_fluxes) =>
      match mapped_fluxes with
      | [] => Ok (List.app status ["No fluxes to map: not writing."], None)
      | _ :: _ =>
          let flux_fields_str :=
            String.concat "; "
              (map (fun nu : string * string => fst nu ++ ", '" ++ snd nu ++ "'")
                   mapped_fluxes) in
          let status :=
            List.app status ["Found flux fields: " ++ flux_fields_str] in
          if write then
            let output := write_output newSchema catalog in
            Ok (List.app status ["Wrote: " ++ filename], Some output)
          else Ok (status, None)
      end
  end.

(** Every character of [s] occurs in [chars]. *)
Fixpoint all_in (chars s : string) : bool :=
  match s with
  | EmptyString => true
  | String c t => in_chars c chars && all_in chars t
  end.

(** What the write phase makes of one input column. *)
Definition convert_column (fc : Field * list float) : Field * list float :=
  let newField := fst (map_field (fst fc)) in
  (newField,
   if scaled_name (getName newField)
   then map (fun v => (v * 1e9)%float) (snd fc)
   else snd fc).

Definition passes_flux_check (field : Field) : bool :=
  is_flux_field (getUnits field) (getName field) (getUnits field).

(** Replacing only the trailing [_fluxSigma] token by [_fluxErr]. *)
Definition replace_trailing_token (name : string) : string :=
  String.substring 0 (String.length name - String.length "_fluxSigma") name
  ++ "_fluxErr".

(** A catalogue with a flux in Jy, a flux and an uncertainty in other
    units, and a sigma column in Jy. *)
Definition sample : Catalog :=
  [ (mkField "id" "identifier" "", [1; 2]%float);
    (mkField "g_flux" "g flux" "Jy", [1.5; 2]%float);
    (mkField "r_flux" "r flux" "mJy", [3; 4]%float);
    (mkField "r_fluxErr" "r flux error" "mJy", [0.5; 0.25]%float);
    (mkField "r_fluxSigma" "r flux sigma" "mJy", [0.5; 0.25]%float);
    (mkField "gaia_fluxSigma" "gaia flux sigma" "Jy", [0.125; 1]%float) ].

End RefcatConvert.

(* ===================================================================== *)
(** ** Ends of a field-name prefix *)
(* ===================================================================== *)

(** The first character of [p] occurs in [chars]. *)
Definition begins_in (chars p : string) : bool :=
  match p with
  | EmptyString => false
  | String c _ => RefcatConvert.in_chars c chars
  end.

(** The last character of [p] occurs in [chars]. *)
Fixpoint ends_in (chars p : string) : bool :=
  match p with
  | EmptyString => false
  | String c t =>
      match t with
      | EmptyString => RefcatConvert.in_chars c chars
      | String _ _ => ends_in chars t
      end
  end.

(* ===================================================================== *)
(** ** tests/Measure_1.py: the helpers of MeasureTestCase *)
(* ===================================================================== *)

Module MeasureTest.

Local Open Scope string_scope.

(** ["%d" % z]. *)
Definition fmt_d (z : Z) : string := NilZero.string_of_int (Z.to_int z).

(** [toString(sp)] for a span [(y, x0, x1)]: ["%d: %d..%d" % (y, x0, x1)]. *)
Definition toString (sp : Z * Z * Z) : string :=
  let '(y, x0, x1) := sp in
  fmt_d y ++ ": " ++ fmt_d x0 ++ ".." ++ fmt_d x1.

(** [MeasureTestCase.Object]: a pixel value and a list of spans. *)
Record Object : Type := mkObject {
  val : float;
  spans : list (Z * Z * Z)
}.

(** An image as the pixel values [im.get(x, y)]; [im.set(x, y, v)] changes
    one of them. *)
Definition Image : Type := Z -> Z -> float.

Definition set (im : Image) (x y : Z) (v : float) : Image :=
  fun x' y' => if ((x' =? x) && (y' =? y))%Z then v else im x' y'.

(** [range(a, b)]. *)
Definition py_range (a b : Z) : list Z :=
  map (fun i => a + Z.of_nat i) (seq 0 (Z.to_nat (b - a))).

(** [Object.insert(im)]: for every span, set the pixels [x0..x1] of row
    [y] to [self.val]. *)
Definition insert (self : Object) (im : Image) : Image :=
  fold_left
    (fun im (sp : Z * Z * Z) =>
       let '(y, x0, x1) := sp in
       fold_left (fun im x => set im x y (val self)) (py_range x0 (x1 + 1)) im)
    (spans self) im.

(** [Object.__eq__(other)]: [False] at the first pair of
    [zip(other.getSpans(), self.spans)] whose strings differ, else [True].
    The spans of [other] print themselves as [toString] does. *)
Definition Object_eq (self : Object) (other_spans : list (Z * Z * Z)) : bool :=
  forallb (fun p : (Z * Z * Z) * (Z * Z * Z) =>
             String.eqb (toString (fst p)) (toString (snd p)))
          (combine other_spans (spans self)).


(** The three objects of [setUp]. *)
Definition objects : list Object :=
  [ mkObject 10 [(1, 4, 4); (2, 3, 5); (3, 4, 4)];
    mkObject 20 [(5, 7, 8); (5, 10, 10); (6, 8, 9)];
    mkObject 20 [(6, 3, 3)] ].

End MeasureTest.

(* ===================================================================== *)
(** ** Further inputs for worked runs *)
(* ===================================================================== *)

(** Thirteen clean measurements, the first with a NaN uncertainty. *)
Definition thirteen_one_nan : list Example.Photometry :=
  Example.clean 0 nan :: tl Example.thirteen.

(** Thirteen clean measurements, the first with zero flux over a zero
    aperture area. *)
Definition thirteen_zero_area : list Example.Photometry :=
  Example.mkPhot 0 4.446 0 false 0 false :: tl Example.thirteen.




(** The configuration with [minNumSources] set to zero. *)
Definition zero_min_config : DynamicDetectionConfig :=
  mkConfig 0.5%float true 0 5%float false false.

(** Thirteen clean measurements of uncertainty 2, six of flux -1.7e308 and
    seven of flux 1.7e308. *)
Definition huge13 : list Example.Photometry :=
  map (fun i => Example.clean (if (i <? 6)%nat then (-1.7e308)%float
                               else 1.7e308%float) 2%float)
      (seq 0 13).

(** One pixel holding the single-precision value nearest to 0.3, in a
    single-precision and in a double-precision exposure. *)
Definition one_pixel_state (t : PixelType) : State :=
  mkState (mkExposure [[0.30000001192092896%float]] [[0]] (mkBBox 0 0 1 1) t)
    [] [].

(** An exposure with a NaN pixel, in a fresh task. *)
Definition nan_pixel_state : State :=
  mkState (mkExposure [[nan; 1]]%float [[0; 0]] (mkBBox 0 0 2 1) PixelF) [] [].

(* ===================================================================== *)
(** ** The numpy operations on small arrays *)
(* ===================================================================== *)

Example median_values :
  Np.median [3; 1; 2]%float = 2%float
  /\ Np.median [3; 1; 2; 10]%float = 2.5%float
  /\ Np.median [1; nan; 2]%float = nan
  /\ Np.median [(-0)%float] = 0%float
  /\ Np.median [] = nan.
Proof. repeat split; reflexivity. Qed.

Example percentile_values :
  Np.percentile_25_75 [4; 0; 3; 1; 2]%float = Some (1, 3)%float
  /\ Np.percentile_25_75 [3; 0; 2; 1]%float = Some (0.75, 2.25)%float
  /\ Np.percentile_25_75 [5]%float = Some (5, 5)%float
  /\ Np.percentile_25_75 [] = None.
Proof. repeat split; reflexivity. Qed.

Example select_values :
  Np.select [10; 20; 30; 40] [true; false; false; true] = [10; 40]
  /\ Np.count_true [true; false; false; true] = 2.
Proof. split; reflexivity. Qed.

(* ===================================================================== *)
(** ** Columns and boolean masks against records and filters *)
(* ===================================================================== *)

Section Columns.

Context {A B C D : Type}.

Lemma map2_map (g : B -> C -> D) (f1 : A -> B) (f2 : A -> C) (l : list A) :
  Np.map2 g (map f1 l) (map f2 l) = map (fun r => g (f1 r) (f2 r)) l.
Proof.
  induction l as [|a l IH]; simpl; [reflexivity|]. now rewrite IH.
Qed.

Lemma select_map (f : A -> B) (p : A -> bool) (l : list A) :
  Np.select (map f l) (map p l) = map f (List.filter p l).
Proof.
  induction l as [|a l IH]; simpl; [reflexivity|].
  destruct (p a); simpl; now rewrite IH.
Qed.

Lemma count_true_map (p : A -> bool) (l : list A) :
  Np.count_true (map p l) = Z.of_nat (List.length (List.filter p l)).
Proof.
  unfold Np.count_true. f_equal.
  induction l as [|a l IH]; simpl; [reflexivity|].
  destruct (p a); simpl; now rewrite IH.
Qed.

End Columns.

Lemma good_mask_is_good (catalog : list SourceRecord) :
  good_mask catalog = map is_good catalog.
Proof.
  unfold good_mask, Np.and_, Np.invert.
  induction catalog as [|r l IH]; simpl; [reflexivity|].
  now rewrite IH.
Qed.

Lemma good_count_mask (catalog : list SourceRecord) :
  Np.count_true (good_mask catalog) = good_count catalog.
Proof.
  rewrite good_mask_is_good, count_true_map. reflexivity.
Qed.

(** [np.percentile] succeeds exactly on a non-empty array. *)
Lemma percentile_some (xs : list float) :
  xs <> [] -> exists lq uq, Np.percentile_25_75 xs = Some (lq, uq).
Proof.
  destruct xs as [|x xs]; [intros H; now destruct H|]. intros _.
  unfold Np.percentile_25_75, Np.quartile. simpl. eauto.
Qed.

Lemma filtered_nonempty (catalog : list SourceRecord) :
  0 < good_count catalog -> filtered catalog <> [].
Proof.
  unfold good_count. intros H Hnil. rewrite Hnil in H. simpl in H. lia.
Qed.

Lemma good_count_nonneg (catalog : list SourceRecord) : 0 <= good_count catalog.
Proof. unfold good_count. lia. Qed.

(** The statistics branch of [threshold_from_catalog], with a usable
    record. *)
Lemma threshold_from_catalog_enough
      (config : DynamicDetectionConfig) (catalog : list SourceRecord) (st : State) :
  minNumSources config <= good_count catalog ->
  0 < good_count catalog ->
  threshold_from_catalog config catalog st = (Ok (code_correction catalog), st).
Proof.
  intros Hmin Hpos. unfold threshold_from_catalog.
  rewrite good_count_mask.
  destruct (Z.ltb_spec (good_count catalog) (minNumSources config)) as [Hlt|_];
    [lia|].
  rewrite good_mask_is_good.
  rewrite !map2_map, !select_map.
  unfold code_correction, multiplicative_term, robust_stdev, iqr, median_error,
    additive_term, filtered.
  destruct (percentile_some
              (map (fun r => (base_PsfFlux_instFlux r
                              - base_LocalBackground_instFlux r
                                * base_PsfFlux_area r)%float)
                   (List.filter is_good catalog))) as (lq & uq & Hq).
  { intros Hnil. apply map_eq_nil in Hnil.
    now apply (filtered_nonempty catalog Hpos). }
  unfold background_subtracted, flux_per_area. rewrite Hq. reflexivity.
Qed.

(** The statistics branch without a usable record: [np.percentile] raises
    on the empty selection. *)
Lemma threshold_from_catalog_empty
      (config : DynamicDetectionConfig) (catalog : list SourceRecord) (st : State) :
  minNumSources config <= good_count catalog ->
  good_count catalog = 0 ->
  threshold_from_catalog config catalog st = (Raise IndexError, st).
Proof.
  intros Hmin Hzero. unfold threshold_from_catalog.
  rewrite good_count_mask.
  destruct (Z.ltb_spec (good_count catalog) (minNumSources config)) as [Hlt|_];
    [lia|].
  rewrite good_mask_is_good.
  rewrite !map2_map, !select_map.
  assert (Hnil : List.filter is_good catalog = []).
  { unfold good_count, filtered in Hzero.
    destruct (List.filter is_good catalog); [reflexivity | simpl in Hzero; lia]. }
  rewrite Hnil. reflexivity.
Qed.

(** The fallback branch of [threshold_from_catalog]. *)
Lemma threshold_from_catalog_insufficient
      (config : DynamicDetectionConfig) (catalog : list SourceRecord) (st : State) :
  good_count catalog < minNumSources config ->
  threshold_from_catalog config catalog st
  = (Ok identity_correction,
     mkState (exposure st)
       (log st ++ [insufficient_warning (good_count catalog) (minNumSources config)])
       (calls st)).
Proof.
  intros Hlt. unfold threshold_from_catalog.
  rewrite good_count_mask.
  destruct (Z.ltb_spec (good_count catalog) (minNumSources config)) as [_|Hge];
    [|lia].
  reflexivity.
Qed.

(* ===================================================================== *)
(** ** calculateThreshold: the catalogue of sky objects *)
(* ===================================================================== *)

Section SkyCatalog.

Context {Psf Middle : Type}.
Variable ext : Collaborators Psf Middle.
Variable config : DynamicDetectionConfig.

Lemma set_sky_centroid_one_peak (fp : Footprint) (st : State) :
  one_peak fp = true ->
  set_sky_centroid ext (makeSource fp) st
  = (Ok (sky_source ext (exposure st) fp), st).
Proof.
  unfold one_peak, set_sky_centroid, sky_source. simpl.
  destruct (getPeaks fp) as [|p [|q l]]; simpl; try discriminate.
  intros _. reflexivity.
Qed.

Lemma set_sky_centroid_bad_peaks (fp : Footprint) (st : State) :
  one_peak fp = false ->
  set_sky_centroid ext (makeSource fp) st = (Raise AssertionError, st).
Proof.
  unfold one_peak, set_sky_centroid. simpl.
  destruct (getPeaks fp) as [|p [|q l]]; simpl; try discriminate;
    intros _; reflexivity.
Qed.

(** The loop leaves the state alone; it yields the sky catalogue when all
    footprints have one peak and raises at the first one that has not. *)
Lemma for_each_set_sky_centroid (fps : list Footprint) (st : State) :
  for_each (set_sky_centroid ext) (makeSources fps) st
  = (if forallb one_peak fps
     then Ok (sky_catalog ext (exposure st) fps)
     else Raise AssertionError,
     st).
Proof.
  unfold makeSources.
  induction fps as [|fp fps IH]; [reflexivity|].
  cbn [map for_each forallb]. unfold bind at 1.
  destruct (one_peak fp) eqn:Hfp.
  - rewrite (set_sky_centroid_one_peak _ _ Hfp).
    unfold bind at 1. rewrite IH. cbn [andb].
    destruct (forallb one_peak fps); reflexivity.
  - rewrite (set_sky_centroid_bad_peaks _ _ Hfp). reflexivity.
Qed.

Lemma calculateThreshold_measured
      (seed : Z) (sigma : option float) (st : State)
      (fps : list Footprint) (catalog : list SourceRecord) :
  skyObjects_run ext (mask (exposure st)) seed = Ok fps ->
  forallb one_peak fps = true ->
  skyMeasurement_run ext (sky_catalog ext (exposure st) fps) (exposure st)
  = Ok catalog ->
  calculateThreshold ext config seed sigma st
  = threshold_from_catalog config catalog (after_measurement ext seed fps st).
Proof.
  intros Hsky Hpeaks Hmeas.
  unfold calculateThreshold, bind, get_mask, record_call, lift, get_exposure.
  simpl. rewrite Hsky.
  rewrite for_each_set_sky_centroid. simpl. rewrite Hpeaks. simpl.
  rewrite Hmeas. reflexivity.
Qed.

Lemma calculateThreshold_assertion
      (seed : Z) (sigma : option float) (st : State) (fps : list Footprint) :
  skyObjects_run ext (mask (exposure st)) seed = Ok fps ->
  forallb one_peak fps = false ->
  calculateThreshold ext config seed sigma st
  = (Raise AssertionError,
     mkState (exposure st) (log st)
       (calls st ++ [CallSkyObjects (mask (exposure st)) seed])).
Proof.
  intros Hsky Hpeaks.
  unfold calculateThreshold, bind, get_mask, record_call, lift, get_exposure.
  simpl. rewrite Hsky.
  rewrite for_each_set_sky_centroid. simpl. rewrite Hpeaks. reflexivity.
Qed.

End SkyCatalog.

(* ===================================================================== *)
(** ** IEEE facts about a quotient by a degenerate divisor *)
(* ===================================================================== *)

Lemma isfinite_nan (x : float) : Prim2SF x = S754_nan -> Np.isfinite x = false.
Proof.
  intros H. unfold Np.isfinite, is_finite, is_nan.
  rewrite FloatAxioms.eqb_spec, H. reflexivity.
Qed.

Lemma isfinite_infinity (x : float) (s : bool) :
  Prim2SF x = S754_infinity s -> Np.isfinite x = false.
Proof.
  intros H. unfold Np.isfinite, is_finite, is_nan, is_infinity.
  rewrite !FloatAxioms.eqb_spec, abs_spec, H.
  destruct s; reflexivity.
Qed.

Lemma eqb_zero_class (y : float) :
  (y =? 0)%float = true -> exists s, Prim2SF y = S754_zero s.
Proof.
  rewrite FloatAxioms.eqb_spec.
  change (Prim2SF 0%float) with (S754_zero false).
  destruct (Prim2SF y) as [s| s| |s m e]; unfold SFeqb; simpl;
    try discriminate; try (destruct s; discriminate).
  intros _. now exists s.
Qed.

Lemma isnan_class (y : float) : Np.isnan y = true -> Prim2SF y = S754_nan.
Proof.
  unfold Np.isnan, is_nan. rewrite FloatAxioms.eqb_spec.
  destruct (Prim2SF y) as [s| s| |s m e]; unfold SFeqb; simpl;
    try reflexivity; try (destruct s; discriminate).
  destruct s; rewrite ?Z.compare_refl, ?Pos.compare_cont_refl; simpl;
    try discriminate.
  all: rewrite ?Pos.compare_cont_refl; discriminate.
Qed.

Lemma is_infinity_class (x : float) :
  is_infinity x = true -> exists s, Prim2SF x = S754_infinity s.
Proof.
  unfold is_infinity. rewrite FloatAxioms.eqb_spec, abs_spec.
  change (Prim2SF infinity) with (S754_infinity false).
  destruct (Prim2SF x) as [s| s| |s m e]; unfold SFeqb; simpl;
    try discriminate.
  intros _. now exists s.
Qed.

Lemma SFeqb_finite_refl (s : bool) (m : BinNums.positive) (e : Z) :
  SFeqb (S754_finite s m e) (S754_finite s m e) = true.
Proof.
  unfold SFeqb, SFcompare.
  destruct s; rewrite Z.compare_refl, Pos.compare_cont_refl; reflexivity.
Qed.

Lemma isfinite_zero (x : float) (s : bool) :
  Prim2SF x = S754_zero s -> Np.isfinite x = true.
Proof.
  intros H. unfold Np.isfinite, is_finite, is_nan, is_infinity.
  rewrite !FloatAxioms.eqb_spec, abs_spec, H. reflexivity.
Qed.

Lemma isfinite_finite (x : float) (s : bool) (m : BinNums.positive) (e : Z) :
  Prim2SF x = S754_finite s m e -> Np.isfinite x = true.
Proof.
  intros H. unfold Np.isfinite, is_finite, is_nan, is_infinity.
  rewrite !FloatAxioms.eqb_spec, abs_spec, H.
  rewrite SFeqb_finite_refl. reflexivity.
Qed.

Lemma isnan_of_class (x : float) : Prim2SF x = S754_nan -> Np.isnan x = true.
Proof.
  intros H. unfold Np.isnan, is_nan. rewrite FloatAxioms.eqb_spec, H.
  reflexivity.
Qed.

Lemma eqb_zero_of_class (x : float) (s : bool) :
  Prim2SF x = S754_zero s -> (x =? 0)%float = true.
Proof.
  intros H. rewrite FloatAxioms.eqb_spec, H. reflexivity.
Qed.

(** A quotient by an infinity is a zero when the numerator is finite, and
    NaN otherwise. *)
Lemma div_by_infinity (x y : float) :
  is_infinity y = true ->
  if Np.isfinite x then (x / y =? 0)%float = true
  else Np.isnan (x / y) = true.
Proof.
  intros Hy. destruct (is_infinity_class y Hy) as [sy Hinf].
  pose proof (FloatAxioms.div_spec x y) as Hdiv. rewrite Hinf in Hdiv.
  unfold SF64div in Hdiv.
  destruct (Prim2SF x) as [sx| sx| |sx mx ex] eqn:Hx; simpl in Hdiv.
  - rewrite (isfinite_zero x sx Hx). now apply eqb_zero_of_class with (s := xorb sx sy).
  - rewrite (isfinite_infinity x sx Hx). now apply isnan_of_class.
  - rewrite (isfinite_nan x Hx). now apply isnan_of_class.
  - rewrite (isfinite_finite x sx mx ex Hx).
    now apply eqb_zero_of_class with (s := xorb sx sy).
Qed.

(** A quotient by zero is never finite: it is an infinity or NaN. *)
Lemma div_by_zero_not_finite (x y : float) :
  (y =? 0)%float = true -> Np.isfinite (x / y) = false.
Proof.
  intros Hy. destruct (eqb_zero_class y Hy) as [sy Hzero].
  pose proof (FloatAxioms.div_spec x y) as Hdiv. rewrite Hzero in Hdiv.
  unfold SF64div in Hdiv.
  destruct (Prim2SF x) as [sx| sx| |sx mx ex]; simpl in Hdiv.
  - now apply isfinite_nan.
  - now apply isfinite_infinity with (s := xorb sx sy).
  - now apply isfinite_nan.
  - now apply isfinite_infinity with (s := xorb sx sy).
Qed.

(** A quotient by NaN is NaN. *)
Lemma div_by_nan_not_finite (x y : float) :
  Np.isnan y = true -> Np.isfinite (x / y) = false.
Proof.
  intros Hy. apply isnan_class in Hy.
  pose proof (FloatAxioms.div_spec x y) as Hdiv. rewrite Hy in Hdiv.
  unfold SF64div in Hdiv.
  apply isfinite_nan. rewrite Hdiv.
  destruct (Prim2SF x); reflexivity.
Qed.

(* ===================================================================== *)
(** ** calculateThreshold: the correction it returns *)
(* ===================================================================== *)

Lemma threshold_from_catalog_calls
      (config : DynamicDetectionConfig) (catalog : list SourceRecord) (st : State) :
  calls (snd (threshold_from_catalog config catalog st)) = calls st.
Proof.
  unfold threshold_from_catalog.
  destruct (Np.count_true (good_mask catalog) <? minNumSources config);
    [reflexivity|].
  destruct (Np.percentile_25_75 _) as [[lq uq]|]; reflexivity.
Qed.

Lemma surfaced_quiet_ok {A : Type} (st : State) (a : A) (cs : list Call) :
  surfaced st (Ok a, mkState (exposure st) (log st) cs) = false.
Proof.
  unfold surfaced. simpl. now rewrite skipn_all.
Qed.

Lemma all_flagged_none_good (catalog : list SourceRecord) :
  forallb (fun r => base_PsfFlux_flag r || base_LocalBackground_flag r) catalog
  = true ->
  good_count catalog = 0.
Proof.
  unfold good_count, filtered.
  induction catalog as [|r l IH]; simpl; [reflexivity|].
  intros H. apply andb_true_iff in H as [Hr Hl].
  unfold is_good at 1.
  destruct (base_PsfFlux_flag r), (base_LocalBackground_flag r);
    simpl in *; try discriminate; auto.
Qed.

(** C1 (as amended): when at least [minNumSources] records pass the filter
    (both flags clear; flux, area and background finite) and at least one
    does, [calculateThreshold] returns the correction whose additive term is
    the median of flux/area over the filtered records and whose
    multiplicative term is the median flux uncertainty over the filtered
    records divided by 0.741 times the interquartile range of
    [flux - background*area] over the filtered records. When no record
    passes (which a [minNumSources] of zero or less lets through) the
    percentile of the empty selection raises [IndexError] and no correction
    is returned. In both cases the task logs nothing. *)
Theorem calculateThreshold_correction
        (Psf Middle : Type) (ext : Collaborators Psf Middle)
        (config : DynamicDetectionConfig) (seed : Z) (sigma : option float)
        (st : State) (fps : list Footprint) (catalog : list SourceRecord) :
  skyObjects_run ext (mask (exposure st)) seed = Ok fps ->
  forallb one_peak fps = true ->
  skyMeasurement_run ext (sky_catalog ext (exposure st) fps) (exposure st)
  = Ok catalog ->
  minNumSources config <= good_count catalog ->
  fst (calculateThreshold ext config seed sigma st)
  = (if 0 <? good_count catalog
     then
       Ok (mkThreshold
             (Np.median (map base_PsfFlux_instFluxErr (filtered catalog))
              / (0.741 * iqr (map background_subtracted (filtered catalog))))%float
             (Np.median (map flux_per_area (filtered catalog))))
     else Raise IndexError)
  /\ log (snd (calculateThreshold ext config seed sigma st)) = log st.
Proof.
  intros Hsky Hpeaks Hmeas Hmin.
  rewrite (calculateThreshold_measured ext config seed sigma st fps catalog
             Hsky Hpeaks Hmeas).
  destruct (Z.ltb_spec 0 (good_count catalog)) as [Hpos|Hzero].
  - rewrite threshold_from_catalog_enough by assumption.
    split; reflexivity.
  - pose proof (good_count_nonneg catalog) as Hnn.
    rewrite threshold_from_catalog_empty by lia.
    split; reflexivity.
Qed.

Lemma calculateThreshold_correction_witness :
  fst (calculateThreshold
         (Example.collaborators (Example.sky_footprints 13) Example.thirteen)
         Example.default_config 42 None Example.state0)
  = Ok (mkThreshold
          (Np.median (map base_PsfFlux_instFluxErr
                        (filtered (Example.measured (Example.sky_footprints 13)
                                     Example.thirteen)))
           / (0.741 * iqr (map background_subtracted
                             (filtered (Example.measured (Example.sky_footprints 13)
                                          Example.thirteen)))))%float
          (Np.median (map flux_per_area
                        (filtered (Example.measured (Example.sky_footprints 13)
                                     Example.thirteen)))))
  /\ log (snd (calculateThreshold
                 (Example.collaborators (Example.sky_footprints 13) Example.thirteen)
                 Example.default_config 42 None Example.state0))
     = log Example.state0.
Proof.
  apply (calculateThreshold_correction unit (list (list float))
           (Example.collaborators (Example.sky_footprints 13) Example.thirteen)
           Example.default_config 42 None Example.state0
           (Example.sky_footprints 13)
           (Example.measured (Example.sky_footprints 13) Example.thirteen)).
  - reflexivity.
  - reflexivity.
  - reflexivity.
  - vm_compute. discriminate.
Defined.

(** C1 as the specification states it (constant 0.7413) fails: thirteen
    clean records with fluxes 0..12 and uncertainty 4.446 pass the filter,
    the interquartile range is 6, and the code returns the factor
    4.446 / (0.741 * 6) = 1, not 4.446 / (0.7413 * 6). *)
Lemma calculateThreshold_constant_counterexample :
  minNumSources Example.default_config
  <= good_count (Example.measured (Example.sky_footprints 13) Example.thirteen)
  /\ fst (calculateThreshold
            (Example.collaborators (Example.sky_footprints 13) Example.thirteen)
            Example.default_config 42 None Example.state0)
     = Ok (mkThreshold 1 6)
  /\ spec_correction (Example.measured (Example.sky_footprints 13) Example.thirteen)
     = mkThreshold 0.99959530554431397 6
  /\ (multiplicative
        (spec_correction (Example.measured (Example.sky_footprints 13)
                            Example.thirteen)) =? 1)%float = false.
Proof.
  repeat split; vm_compute; try reflexivity; discriminate.
Qed.

(** With [minNumSources] at zero and every record flagged, the statistics
    run on an empty selection: the percentile raises and nothing is
    logged. *)
Example empty_selection_run :
  calculateThreshold
    (Example.collaborators (Example.sky_footprints 13) Example.all_failed)
    zero_min_config 42 None Example.state0
  = (Raise IndexError,
     after_measurement
       (Example.collaborators (Example.sky_footprints 13) Example.all_failed)
       42 (Example.sky_footprints 13) Example.state0).
Proof. vm_compute. reflexivity. Qed.

(** C2: when fewer than [minNumSources] records pass the filter,
    [calculateThreshold] logs one warning and returns the identity correction
    [{multiplicative: 1.0, additive: 0.0}] without raising; an empty
    catalogue and a catalogue in which every record carries a failure flag
    are instances (with a positive [minNumSources]). *)
Theorem calculateThreshold_insufficient
        (Psf Middle : Type) (ext : Collaborators Psf Middle)
        (config : DynamicDetectionConfig) (seed : Z) (sigma : option float)
        (st : State) (fps : list Footprint) (catalog : list SourceRecord) :
  skyObjects_run ext (mask (exposure st)) seed = Ok fps ->
  forallb one_peak fps = true ->
  skyMeasurement_run ext (sky_catalog ext (exposure st) fps) (exposure st)
  = Ok catalog ->
  good_count catalog < minNumSources config
  \/ (0 < minNumSources config /\ catalog = [])
  \/ (0 < minNumSources config
      /\ forallb (fun r => base_PsfFlux_flag r || base_LocalBackground_flag r)
           catalog = true) ->
  fst (calculateThreshold ext config seed sigma st) = Ok (mkThreshold 1.0 0.0)
  /\ log (snd (calculateThreshold ext config seed sigma st))
     = log st ++ [insufficient_warning (good_count catalog) (minNumSources config)]
  /\ exposure (snd (calculateThreshold ext config seed sigma st)) = exposure st.
Proof.
  intros Hsky Hpeaks Hmeas Hcases.
  assert (Hlt : good_count catalog < minNumSources config).
  { destruct Hcases as [H | [[Hpos Hnil] | [Hpos Hflag]]].
    - exact H.
    - subst catalog. exact Hpos.
    - rewrite (all_flagged_none_good catalog Hflag). exact Hpos. }
  rewrite (calculateThreshold_measured ext config seed sigma st fps catalog
             Hsky Hpeaks Hmeas).
  rewrite threshold_from_catalog_insufficient by exact Hlt.
  repeat split; reflexivity.
Qed.

(** The scenario of the specification: five usable sky samples (and eight
    failed ones) with [minNumSources = 10]. *)
Lemma calculateThreshold_insufficient_witness :
  fst (calculateThreshold
         (Example.collaborators (Example.sky_footprints 13) Example.five_good)
         Example.default_config 42 None Example.state0)
  = Ok (mkThreshold 1.0 0.0)
  /\ log (snd (calculateThreshold
                 (Example.collaborators (Example.sky_footprints 13) Example.five_good)
                 Example.default_config 42 None Example.state0))
     = log Example.state0
       ++ [insufficient_warning
             (good_count (Example.measured (Example.sky_footprints 13)
                            Example.five_good))
             (minNumSources Example.default_config)]
  /\ exposure (snd (calculateThreshold
                      (Example.collaborators (Example.sky_footprints 13)
                         Example.five_good)
                      Example.default_config 42 None Example.state0))
     = exposure Example.state0.
Proof.
  apply (calculateThreshold_insufficient unit (list (list float))
           (Example.collaborators (Example.sky_footprints 13) Example.five_good)
           Example.default_config 42 None Example.state0
           (Example.sky_footprints 13)
           (Example.measured (Example.sky_footprints 13) Example.five_good)).
  - reflexivity.
  - reflexivity.
  - reflexivity.
  - left. vm_compute. reflexivity.
Defined.

(** The other scenario of the specification: every record flagged as
    failed. *)
Example all_failed_run :
  fst (calculateThreshold
         (Example.collaborators (Example.sky_footprints 13) Example.all_failed)
         Example.default_config 42 None Example.state0)
  = Ok (mkThreshold 1.0 0.0)
  /\ log (snd (calculateThreshold
                 (Example.collaborators (Example.sky_footprints 13)
                    Example.all_failed)
                 Example.default_config 42 None Example.state0))
     = [insufficient_warning 0 10].
Proof. split; vm_compute; reflexivity. Qed.

(** C3 as stated fails: thirteen clean records that all report flux 7 pass
    the filter, their interquartile range and so the robust deviation is
    zero, and [calculateThreshold] returns normally, with an empty log, the
    factor [2 / 0 = infinity]. (numpy reports the division through Python's
    warning machinery, outside the task's log; the value returned is the
    same.) *)
Lemma calculateThreshold_degenerate_counterexample :
  minNumSources Example.default_config
  <= good_count (Example.measured (Example.sky_footprints 13) Example.constant13)
  /\ (robust_stdev 0.741
        (Example.measured (Example.sky_footprints 13) Example.constant13)
      =? 0)%float = true
  /\ fst (calculateThreshold
            (Example.collaborators (Example.sky_footprints 13) Example.constant13)
            Example.default_config 42 None Example.state0)
     = Ok (mkThreshold infinity 7)
  /\ Np.isfinite infinity = false
  /\ surfaced Example.state0
       (calculateThreshold
          (Example.collaborators (Example.sky_footprints 13) Example.constant13)
          Example.default_config 42 None Example.state0)
     = false.
Proof.
  repeat split; vm_compute; try reflexivity; discriminate.
Qed.

(** Thirteen finite fluxes whose quartiles are 3.4e308 apart: the
    interquartile range overflows to infinity and the call returns, with an
    empty log, the factor [2 / infinity = 0]. *)
Example infinite_deviation_run :
  good_count (Example.measured (Example.sky_footprints 13) huge13) = 13
  /\ robust_stdev 0.741 (Example.measured (Example.sky_footprints 13) huge13)
     = infinity
  /\ fst (calculateThreshold
            (Example.collaborators (Example.sky_footprints 13) huge13)
            Example.default_config 42 None Example.state0)
     = Ok (mkThreshold 0 1.7e308)
  /\ surfaced Example.state0
       (calculateThreshold
          (Example.collaborators (Example.sky_footprints 13) huge13)
          Example.default_config 42 None Example.state0)
     = false.
Proof. repeat split; vm_compute; reflexivity. Qed.

(** C3 (as amended): with at least [minNumSources] filtered records, of
    which at least one, [calculateThreshold] makes no check on the robust
    deviation: it returns normally, raises nothing and logs nothing, and its
    multiplicative term is the IEEE quotient of the median uncertainty by
    0.741 times the interquartile range. When that deviation is zero or NaN
    the quotient is not finite; when it is an infinity the quotient is a zero
    if the median uncertainty is finite and NaN otherwise. Only when no
    record at all passes the filter (and [minNumSources] is zero or less)
    does the call fail, with the [IndexError] of the percentile of an empty
    selection. *)
Theorem calculateThreshold_unguarded_quotient
        (Psf Middle : Type) (ext : Collaborators Psf Middle)
        (config : DynamicDetectionConfig) (seed : Z) (sigma : option float)
        (st : State) (fps : list Footprint) (catalog : list SourceRecord) :
  skyObjects_run ext (mask (exposure st)) seed = Ok fps ->
  forallb one_peak fps = true ->
  skyMeasurement_run ext (sky_catalog ext (exposure st) fps) (exposure st)
  = Ok catalog ->
  minNumSources config <= good_count catalog ->
  fst (calculateThreshold ext config seed sigma st)
  = (if 0 <? good_count catalog
     then Ok (mkThreshold (median_error catalog / robust_stdev 0.741 catalog)%float
                (additive_term catalog))
     else Raise IndexError)
  /\ surfaced st (calculateThreshold ext config seed sigma st)
     = negb (0 <? good_count catalog)
  /\ ((robust_stdev 0.741 catalog =? 0)%float = true
      \/ Np.isnan (robust_stdev 0.741 catalog) = true ->
      Np.isfinite (median_error catalog / robust_stdev 0.741 catalog)%float = false)
  /\ (is_infinity (robust_stdev 0.741 catalog) = true ->
      if Np.isfinite (median_error catalog)
      then (median_error catalog / robust_stdev 0.741 catalog =? 0)%float = true
      else Np.isnan (median_error catalog / robust_stdev 0.741 catalog) = true).
Proof.
  intros Hsky Hpeaks Hmeas Hmin.
  rewrite (calculateThreshold_measured ext config seed sigma st fps catalog
             Hsky Hpeaks Hmeas).
  split; [|split; [|split]].
  - destruct (Z.ltb_spec 0 (good_count catalog)) as [Hpos|Hzero].
    + now rewrite threshold_from_catalog_enough.
    + pose proof (good_count_nonneg catalog) as Hnn.
      rewrite threshold_from_catalog_empty by lia. reflexivity.
  - destruct (Z.ltb_spec 0 (good_count catalog)) as [Hpos|Hzero].
    + rewrite threshold_from_catalog_enough by assumption.
      unfold after_measurement. apply surfaced_quiet_ok.
    + pose proof (good_count_nonneg catalog) as Hnn.
      rewrite threshold_from_catalog_empty by lia. reflexivity.
  - intros [Hzero | Hnan].
    + now apply div_by_zero_not_finite.
    + now apply div_by_nan_not_finite.
  - apply div_by_infinity.
Qed.

Lemma calculateThreshold_unguarded_quotient_witness :
  fst (calculateThreshold
         (Example.collaborators (Example.sky_footprints 13) Example.constant13)
         Example.default_config 42 None Example.state0)
  = Ok (mkThreshold
          (median_error (Example.measured (Example.sky_footprints 13)
                           Example.constant13)
           / robust_stdev 0.741 (Example.measured (Example.sky_footprints 13)
                                   Example.constant13))%float
          (additive_term (Example.measured (Example.sky_footprints 13)
                            Example.constant13)))
  /\ Np.isfinite
       (median_error (Example.measured (Example.sky_footprints 13)
                        Example.constant13)
        / robust_stdev 0.741 (Example.measured (Example.sky_footprints 13)
                                Example.constant13))%float
     = false.
Proof.
  pose proof (calculateThreshold_unguarded_quotient unit (list (list float))
           (Example.collaborators (Example.sky_footprints 13) Example.constant13)
           Example.default_config 42 None Example.state0
           (Example.sky_footprints 13)
           (Example.measured (Example.sky_footprints 13) Example.constant13)
           eq_refl eq_refl eq_refl) as H.
  assert (Hmin : minNumSources Example.default_config
                 <= good_count (Example.measured (Example.sky_footprints 13)
                                  Example.constant13)).
  { vm_compute. discriminate. }
  destruct (H Hmin) as [Hret [_ [Hdeg _]]].
  split; [exact Hret|].
  apply Hdeg. left. vm_compute. reflexivity.
Defined.

(** C9: [calculateThreshold] asserts that every sampled footprint has
    exactly one peak before it sets the centroid. If the sampler yields a
    footprint with no peak or with several, the call ends with
    [AssertionError] and the forced measurement is never invoked; otherwise
    the catalogue handed to the measurement has, for each footprint, the
    position of its single peak in the centroid slot. *)
Theorem calculateThreshold_asserts_one_peak
        (Psf Middle : Type) (ext : Collaborators Psf Middle)
        (config : DynamicDetectionConfig) (seed : Z) (sigma : option float)
        (st : State) (fps : list Footprint) :
  skyObjects_run ext (mask (exposure st)) seed = Ok fps ->
  (existsb (fun fp => negb (Nat.eqb (List.length (getPeaks fp)) 1)) fps = true ->
   fst (calculateThreshold ext config seed sigma st) = Raise AssertionError
   /\ calls (snd (calculateThreshold ext config seed sigma st))
      = calls st ++ [CallSkyObjects (mask (exposure st)) seed])
  /\ (existsb (fun fp => negb (Nat.eqb (List.length (getPeaks fp)) 1)) fps = false ->
      calls (snd (calculateThreshold ext config seed sigma st))
      = calls st ++ [CallSkyObjects (mask (exposure st)) seed;
                     CallSkyMeasurement (sky_catalog ext (exposure st) fps)]
      /\ Forall2 (fun fp s => exists p, getPeaks fp = [p] /\ centroid s = getF p)
           fps (sky_catalog ext (exposure st) fps)).
Proof.
  intros Hsky.
  assert (Hall : forallb one_peak fps
                 = negb (existsb (fun fp => negb (Nat.eqb (List.length (getPeaks fp)) 1))
                           fps)).
  { clear. induction fps as [|fp l IH]; simpl; [reflexivity|].
    rewrite IH, negb_orb, negb_involutive. reflexivity. }
  split; intros Hex; rewrite Hex in Hall; simpl in Hall.
  - rewrite (calculateThreshold_assertion ext config seed sigma st fps Hsky Hall).
    split; reflexivity.
  - split.
    + unfold calculateThreshold, bind, get_mask, record_call, lift, get_exposure.
      simpl. rewrite Hsky.
      rewrite for_each_set_sky_centroid. simpl. rewrite Hall. simpl.
      destruct (skyMeasurement_run ext (sky_catalog ext (exposure st) fps)
                  (exposure st)) as [catalog|e].
      * rewrite threshold_from_catalog_calls. simpl.
        now rewrite <- app_assoc.
      * simpl. now rewrite <- app_assoc.
    + clear Hsky Hex. unfold sky_catalog.
      induction fps as [|fp l IH]; simpl; [constructor|].
      simpl in Hall. apply andb_true_iff in Hall as [Hfp Hl].
      constructor; [|exact (IH Hl)].
      unfold one_peak in Hfp.
      destruct (getPeaks fp) as [|p [|q t]] eqn:Hp; simpl in Hfp;
        try discriminate.
      exists p. split; [reflexivity|].
      unfold sky_source. rewrite Hp. reflexivity.
Qed.

Lemma calculateThreshold_asserts_one_peak_witness :
  fst (calculateThreshold
         (Example.collaborators Example.peakless Example.thirteen)
         Example.default_config 42 None Example.state0)
  = Raise AssertionError
  /\ calls (snd (calculateThreshold
                   (Example.collaborators Example.peakless Example.thirteen)
                   Example.default_config 42 None Example.state0))
     = calls Example.state0 ++ [CallSkyObjects (mask (exposure Example.state0)) 42].
Proof.
  apply (proj1 (calculateThreshold_asserts_one_peak unit (list (list float))
                  (Example.collaborators Example.peakless Example.thirteen)
                  Example.default_config 42 None Example.state0
                  Example.peakless eq_refl)).
  reflexivity.
Defined.

(* ===================================================================== *)
(** ** Methods as functions of the exposure *)
(* ===================================================================== *)

Ltac writes_nothing r e' :=
  let e := fresh "e" in
  intros e; exists (r e), (e' e), [], []; split; [constructor|];
  intros l c; cbv beta; simpl; now rewrite ?app_nil_r.

Section Writes.

Context {A : Type}.
Variable P : Call -> Prop.

Lemma writes_ret (a : A) : writes P (ret a).
Proof. writes_nothing (fun _ : Exposure => Ok a) (fun e : Exposure => e). Qed.

Lemma writes_raise (x : exn) : writes P (@raise A x).
Proof. writes_nothing (fun _ : Exposure => @Raise A x) (fun e : Exposure => e). Qed.

Lemma writes_lift (r : result A) : writes P (lift r).
Proof. writes_nothing (fun _ : Exposure => r) (fun e : Exposure => e). Qed.

Lemma writes_on_mask (f : list (list Z) -> list (list Z) * result A) :
  writes P (on_mask f).
Proof.
  intros e. exists (snd (f (mask e))), (set_mask e (fst (f (mask e)))), [], [].
  split; [constructor|]. intros l c. unfold on_mask. simpl.
  destruct (f (mask e)) as [m' r]. simpl. now rewrite !app_nil_r.
Qed.

Lemma writes_on_exposure (f : Exposure -> Exposure * result A) :
  writes P (on_exposure f).
Proof.
  intros e. exists (snd (f e)), (fst (f e)), [], [].
  split; [constructor|]. intros l c. unfold on_exposure. simpl.
  destruct (f e) as [e' r]. simpl. now rewrite !app_nil_r.
Qed.

Lemma writes_try_finally (body : M A) (fin : M unit) :
  writes P body -> writes P fin -> writes P (try_finally body fin).
Proof.
  intros Hb Hf e.
  destruct (Hb e) as (r1 & e1 & nl1 & nc1 & P1 & H1).
  destruct (Hf e1) as (r2 & e2 & nl2 & nc2 & P2 & H2).
  exists (match r2 with Ok _ => r1 | Raise x => Raise x end),
    e2, (nl1 ++ nl2), (nc1 ++ nc2).
  split; [apply Forall_app; now split|].
  intros l c. unfold try_finally. rewrite H1, H2.
  destruct r2; now rewrite !app_assoc.
Qed.

Lemma writes_if (b : bool) (m1 m2 : M A) :
  writes P m1 -> writes P m2 -> writes P (if b then m1 else m2).
Proof. destruct b; auto. Qed.

End Writes.

Lemma writes_get_exposure (P : Call -> Prop) : writes P get_exposure.
Proof. writes_nothing (fun e : Exposure => Ok e) (fun e : Exposure => e). Qed.

Lemma writes_get_mask (P : Call -> Prop) : writes P get_mask.
Proof. writes_nothing (fun e : Exposure => Ok (mask e)) (fun e : Exposure => e). Qed.

Lemma writes_put_mask (P : Call -> Prop) (m : list (list Z)) :
  writes P (put_mask m).
Proof. writes_nothing (fun _ : Exposure => Ok tt) (fun e : Exposure => set_mask e m). Qed.

Lemma writes_put_image (P : Call -> Prop) (im : list (list float)) :
  writes P (put_image im).
Proof. writes_nothing (fun _ : Exposure => Ok tt) (fun e : Exposure => set_image e im). Qed.

Lemma writes_emit (P : Call -> Prop) (r : LogRecord) : writes P (emit r).
Proof.
  intros e. exists (Ok tt), e, [r], []. split; [constructor|].
  intros l c. unfold emit. simpl. now rewrite app_nil_r.
Qed.


Lemma writes_bind {A B : Type} (P : Call -> Prop) (m : M A) (f : A -> M B) :
  writes P m -> (forall a, writes P (f a)) -> writes P (bind m f).
Proof.
  intros Hm Hf e.
  destruct (Hm e) as (r1 & e1 & nl1 & nc1 & P1 & H1).
  destruct r1 as [a|x].
  - destruct (Hf a e1) as (r2 & e2 & nl2 & nc2 & P2 & H2).
    exists r2, e2, (nl1 ++ nl2), (nc1 ++ nc2).
    split; [apply Forall_app; now split|].
    intros l c. unfold bind. rewrite H1, H2. now rewrite !app_assoc.
  - exists (Raise x), e1, nl1, nc1. split; [exact P1|].
    intros l c. unfold bind. now rewrite H1.
Qed.

Lemma writes_for_each {A B : Type} (P : Call -> Prop) (body : A -> M B)
      (xs : list A) :
  (forall x, writes P (body x)) -> writes P (for_each body xs).
Proof.
  intros Hbody. induction xs as [|x xs IH]; simpl.
  - apply writes_ret.
  - apply writes_bind; [apply Hbody|]. intros y.
    apply writes_bind; [exact IH|]. intros ys. apply writes_ret.
Qed.

(** Adding no call is a special case of adding calls that satisfy [P]. *)
Lemma writes_no_call {A : Type} (P : Call -> Prop) (m : M A) :
  writes no_call m -> writes P m.
Proof.
  intros Hm e. destruct (Hm e) as (r & e' & nl & nc & Pnc & H).
  exists r, e', nl, nc. split; [|exact H].
  destruct nc as [|c nc]; [constructor|].
  inversion Pnc as [|? ? Hc _]. destruct Hc.
Qed.

Create HintDb writes discriminated.

#[local] Hint Resolve writes_ret writes_raise writes_lift writes_on_mask
  writes_on_exposure writes_get_exposure writes_get_mask writes_put_mask
  writes_put_image writes_emit : writes.

Ltac writes_step :=
  first
    [ apply writes_bind; [|intros ?]
    | apply writes_try_finally
    | apply writes_if
    | apply writes_for_each; intros ?
    | solve [auto with writes] ].

Ltac writes_auto := repeat writes_step.

Lemma skipn_length_app {A : Type} (l r : list A) :
  skipn (List.length l) (l ++ r) = r.
Proof. induction l as [|a l IH]; simpl; [reflexivity | exact IH]. Qed.



Section TaskWrites.

Context {Psf Middle : Type}.
Variable ext : Collaborators Psf Middle.
Variable config : DynamicDetectionConfig.




Lemma writes_tweakBackground (P : Call -> Prop) (bgLevel : float)
      (bgList : option (list BgData)) :
  writes P (tweakBackground bgLevel bgList).
Proof. unfold tweakBackground. writes_auto. Qed.




Lemma writes_background_tweak (P : Call -> Prop) (bgLevel : float) :
  writes P (background_tweak config bgLevel).
Proof.
  unfold background_tweak.
  destruct (doBackgroundTweak config); [|auto with writes].
  apply writes_bind; [apply writes_tweakBackground|]. intros r.
  auto with writes.
Qed.

Lemma writes_final_detection (P : Call -> Prop) (psf : Psf) (doSmooth : bool)
      (factor : float) (bgl : list BgData) :
  writes P (final_detection ext config psf doSmooth factor bgl).
Proof.
  unfold final_detection, with_tempWideBackgroundContext.
  apply writes_bind; [auto with writes|]. intros _.
  apply writes_try_finally; [|auto with writes].
  do 3 (apply writes_bind; [auto with writes|]; intros ?).
  apply writes_bind.
  { destruct (doTempLocalBackground config); auto with writes. }
  intros mr. writes_auto.
Qed.

Lemma writes_final_pass (P : Call -> Prop) (psf : Psf)
      (doSmooth doClearMask : bool) (factor : float) (bgl : list BgData) :
  writes P (final_pass ext config psf doSmooth doClearMask factor bgl).
Proof.
  unfold final_pass.
  apply writes_bind.
  { destruct doClearMask; [auto with writes|]. writes_auto. }
  intros _.
  apply writes_bind; [apply writes_final_detection|]. intros mr.
  apply writes_bind.
  { destruct (reEstimateBackground config); writes_auto. }
  intros results. writes_auto.
Qed.

Lemma writes_after_preliminary (P : Call -> Prop) (psf : Psf)
      (doSmooth doClearMask : bool) (r : float * float) :
  writes P (after_preliminary ext config psf doSmooth doClearMask r).
Proof.
  unfold after_preliminary.
  apply writes_bind; [apply writes_background_tweak|]. intros bgl.
  apply writes_final_pass.
Qed.



End TaskWrites.

(* ===================================================================== *)
(** ** detectFootprints: seed, mask snapshot, background tweak *)
(* ===================================================================== *)

Lemma writes_no_call_calls {A : Type} (m : M A) (s : State) :
  writes no_call m -> calls (snd (m s)) = calls s.
Proof.
  intros Hm. destruct s as [e l c].
  destruct (Hm e) as (r & e' & nl & nc & Pnc & H).
  rewrite H. simpl. destruct nc as [|x nc]; [now rewrite app_nil_r|].
  inversion Pnc as [|? ? Hx _]. destruct Hx.
Qed.


Lemma sampler_calls_single (before after : State) (m : list (list Z)) (seed : Z)
      (tail : list Call) :
  calls after = calls before ++ CallSkyObjects m seed :: tail ->
  Forall (fun c => match c with
                   | CallSkyMeasurement _ => True
                   | CallSkyObjects _ _ => False
                   end) tail ->
  sampler_calls before after = [(m, seed)].
Proof.
  intros Hcalls Htail. unfold sampler_calls.
  rewrite Hcalls, skipn_length_app. simpl. f_equal. clear Hcalls.
  induction Htail as [|c t Hc _ IH]; [reflexivity|].
  destruct c; [destruct Hc | exact IH].
Qed.

Section Detect.

Context {Psf Middle : Type}.
Variable ext : Collaborators Psf Middle.
Variable config : DynamicDetectionConfig.

Lemma compute_seed_run (expId : option Z) (st : State) :
  compute_seed ext expId st
  = (match expId with
     | Some i => Ok (i mod (2 ^ 31 - 1))
     | None =>
         match py_int (array_sum ext (image (exposure st))) with
         | Ok v => Ok (v mod (2 ^ 31 - 1))
         | Raise e => Raise e
         end
     end, st).
Proof.
  unfold compute_seed, bind, get_exposure, lift, ret.
  destruct expId as [i|]; [reflexivity|].
  destruct (py_int (array_sum ext (image (exposure st)))); reflexivity.
Qed.

Lemma detectFootprints_cases (doSmooth : bool) (sigma : option float)
      (doClearMask : bool) (expId : option Z) (st : State) :
  detectFootprints ext config doSmooth sigma doClearMask expId st
  = match getPsf ext (exposure st) sigma with
    | Raise e => (Raise e, st)
    | Ok psf =>
        match fst (compute_seed ext expId st) with
        | Raise e => (Raise e, st)
        | Ok seed =>
            bind (preliminary_phase ext config psf doSmooth seed)
                 (after_preliminary ext config psf doSmooth doClearMask) st
        end
    end.
Proof.
  unfold detectFootprints.
  unfold bind at 1. unfold get_exposure at 1.
  unfold bind at 1. unfold lift at 1.
  destruct (getPsf ext (exposure st) sigma) as [psf|e]; [|reflexivity].
  unfold bind at 1. rewrite compute_seed_run. simpl.
  destruct expId as [i|]; [reflexivity|].
  destruct (py_int (array_sum ext (image (exposure st)))); reflexivity.
Qed.

Lemma preliminary_phase_finally (psf : Psf) (doSmooth : bool) (seed : Z)
      (st : State) :
  preliminary_phase ext config psf doSmooth seed st
  = (fst (preliminary_body ext config psf doSmooth seed st),
     mkState
       (set_mask (exposure (snd (preliminary_body ext config psf doSmooth seed st)))
          (mask (exposure st)))
       (log (snd (preliminary_body ext config psf doSmooth seed st)))
       (calls (snd (preliminary_body ext config psf doSmooth seed st)))).
Proof.
  unfold preliminary_phase, bind, get_mask, try_finally, put_mask.
  destruct (preliminary_body ext config psf doSmooth seed st) as [r s1].
  reflexivity.
Qed.

Lemma calculateThreshold_first_call (seed : Z) (sigma : option float) (s : State) :
  exists tail,
    calls (snd (calculateThreshold ext config seed sigma s))
    = calls s ++ CallSkyObjects (mask (exposure s)) seed :: tail
    /\ Forall (fun c => match c with
                        | CallSkyMeasurement _ => True
                        | CallSkyObjects _ _ => False
                        end) tail.
Proof.
  unfold calculateThreshold, bind, get_mask, record_call, lift, get_exposure.
  simpl.
  destruct (skyObjects_run ext (mask (exposure s)) seed) as [fps|e].
  - rewrite for_each_set_sky_centroid. simpl.
    destruct (forallb one_peak fps); simpl.
    + destruct (skyMeasurement_run ext (sky_catalog ext (exposure s) fps)
                  (exposure s)) as [catalog|e].
      * rewrite threshold_from_catalog_calls. simpl.
        eexists. rewrite <- app_assoc. simpl. split; [reflexivity|].
        constructor; [exact I | constructor].
      * simpl. eexists. rewrite <- app_assoc. simpl. split; [reflexivity|].
        constructor; [exact I | constructor].
    + exists []. split; [reflexivity | constructor].
  - exists []. split; [reflexivity | constructor].
Qed.

End Detect.

Section DetectClaims.

Context {Psf Middle : Type}.
Variable ext : Collaborators Psf Middle.
Variable config : DynamicDetectionConfig.

(** When the preliminary pass succeeds, the sampler is called on the mask
    that [finalizeFootprints] left. *)
Lemma preliminary_body_calls (psf : Psf) (doSmooth : bool) (seed : Z)
      (st : State) (m1 m2 : list (list Z)) (cr : Middle * float)
      (tr tr' : DetResults) :
  clearMask ext (mask (exposure st)) = (m1, Ok tt) ->
  convolveImage ext (set_mask (exposure st) m1) psf doSmooth = Ok cr ->
  applyThreshold ext (fst cr) (getBBox (exposure st))
    (prelimThresholdFactor config) = Ok tr ->
  finalizeFootprints ext m1 tr (snd cr) (prelimThresholdFactor config)
  = (m2, Ok tr') ->
  exists tail,
    calls (snd (preliminary_body ext config psf doSmooth seed st))
    = calls st ++ CallSkyObjects m2 seed :: tail
    /\ Forall (fun c => match c with
                        | CallSkyMeasurement _ => True
                        | CallSkyObjects _ _ => False
                        end) tail.
Proof.
  intros Hclear Hconv Hthr Hfin.
  unfold preliminary_body.
  unfold bind at 1, on_mask at 1. rewrite Hclear.
  unfold bind at 1, get_exposure at 1. cbn [exposure].
  unfold bind at 1, lift at 1. rewrite Hconv.
  unfold bind at 1, lift at 1. cbn [getBBox set_mask]. rewrite Hthr.
  unfold bind at 1, on_mask at 1. cbn [exposure mask set_mask]. rewrite Hfin.
  unfold bind at 1.
  destruct (calculateThreshold_first_call ext config seed (Some (snd cr))
              (mkState
                 (set_mask (set_mask (exposure st) m1) m2)
                 (log st) (calls st)))
    as (tail & Hcalls & Htail).
  cbn [exposure mask set_mask calls log getBBox image] in *.
  destruct (calculateThreshold ext config seed (Some (snd cr)) _) as [[t|e] s3];
    cbn [snd] in Hcalls; exists tail; split; try exact Htail;
    cbn; exact Hcalls.
Qed.

Lemma detection_calls (psf : Psf) (doSmooth doClearMask : bool) (seed : Z)
      (st : State) :
  calls (snd (bind (preliminary_phase ext config psf doSmooth seed)
                   (after_preliminary ext config psf doSmooth doClearMask) st))
  = calls (snd (preliminary_body ext config psf doSmooth seed st)).
Proof.
  unfold bind. rewrite preliminary_phase_finally.
  destruct (fst (preliminary_body ext config psf doSmooth seed st)) as [r|e];
    [|reflexivity].
  rewrite writes_no_call_calls by apply writes_after_preliminary.
  reflexivity.
Qed.

(** C4 (as amended): in a run whose preliminary detection steps succeed,
    the sky sampler is invoked once, on the mask that [finalizeFootprints]
    left on top of the cleared mask (the preliminary detections included),
    not on the snapshot; the mask is set back to the snapshot when the
    preliminary phase exits, after [calculateThreshold] has run. *)
Theorem sampler_sees_preliminary_mask
        (doSmooth : bool) (sigma : option float) (doClearMask : bool)
        (expId : option Z) (st : State) (psf : Psf) (seed : Z)
        (m1 m2 : list (list Z)) (cr : Middle * float) (tr tr' : DetResults) :
  getPsf ext (exposure st) sigma = Ok psf ->
  fst (compute_seed ext expId st) = Ok seed ->
  clearMask ext (mask (exposure st)) = (m1, Ok tt) ->
  convolveImage ext (set_mask (exposure st) m1) psf doSmooth = Ok cr ->
  applyThreshold ext (fst cr) (getBBox (exposure st))
    (prelimThresholdFactor config) = Ok tr ->
  finalizeFootprints ext m1 tr (snd cr) (prelimThresholdFactor config)
  = (m2, Ok tr') ->
  sampler_calls st
    (snd (detectFootprints ext config doSmooth sigma doClearMask expId st))
  = [(m2, seed)]
  /\ mask (exposure (snd (preliminary_phase ext config psf doSmooth seed st)))
     = mask (exposure st).
Proof.
  intros Hpsf Hseed Hclear Hconv Hthr Hfin. split.
  - rewrite detectFootprints_cases, Hpsf, Hseed.
    destruct (preliminary_body_calls psf doSmooth seed st m1 m2 cr tr tr'
                Hclear Hconv Hthr Hfin) as (tail & Hcalls & Htail).
    apply sampler_calls_single with (tail := tail); [|exact Htail].
    rewrite detection_calls. exact Hcalls.
  - rewrite preliminary_phase_finally. reflexivity.
Qed.

(** C5: whatever the outcome of the preliminary pass (a value, or an
    exception raised while clearing the mask, convolving, thresholding,
    finalizing footprints or calculating the threshold), the mask is set back
    to the copy taken before the pass; the state handed to the next phase, or
    left to the caller when the exception propagates, has that mask. *)
Theorem preliminary_phase_restores_mask
        (doSmooth : bool) (sigma : option float) (doClearMask : bool)
        (expId : option Z) (st : State) (psf : Psf) (seed : Z) :
  getPsf ext (exposure st) sigma = Ok psf ->
  fst (compute_seed ext expId st) = Ok seed ->
  mask (exposure (snd (preliminary_phase ext config psf doSmooth seed st)))
  = mask (exposure st)
  /\ fst (preliminary_phase ext config psf doSmooth seed st)
     = fst (preliminary_body ext config psf doSmooth seed st)
  /\ detectFootprints ext config doSmooth sigma doClearMask expId st
     = match fst (preliminary_phase ext config psf doSmooth seed st) with
       | Ok r =>
           after_preliminary ext config psf doSmooth doClearMask r
             (snd (preliminary_phase ext config psf doSmooth seed st))
       | Raise e =>
           (Raise e, snd (preliminary_phase ext config psf doSmooth seed st))
       end.
Proof.
  intros Hpsf Hseed. repeat split.
  - rewrite preliminary_phase_finally. reflexivity.
  - rewrite preliminary_phase_finally. reflexivity.
  - rewrite detectFootprints_cases, Hpsf, Hseed. unfold bind.
    destruct (preliminary_phase ext config psf doSmooth seed st) as [[r|e] s1];
      reflexivity.
Qed.

(** The constant background model that [tweakBackground] appends. *)
Lemma background_tweak_run (bgLevel : float) (st : State) :
  background_tweak config bgLevel st
  = if doBackgroundTweak config then
      (Ok [constant_background (getBBox (exposure st)) bgLevel],
       mkState
         (set_image (exposure st) (isub_scalar (exposure st) bgLevel))
         (log st ++ [mkLog INFO "Tweaking background by %f to match sky photometry"
                       [ArgFloat bgLevel]])
         (calls st))
    else (Ok [], st).
Proof.
  unfold background_tweak.
  destruct (doBackgroundTweak config); reflexivity.
Qed.

(** C6 (as amended): in a run whose preliminary phase ends with the offset
    [bgLevel] and the factor [factor], the final pass starts, when
    [doBackgroundTweak] is set, from the image with [bgLevel] subtracted
    from every pixel in the arithmetic of the image's pixel type, and from a
    background list holding the one constant term, whose single-precision
    statistics image holds [bgLevel]; when it is not set, it starts from the
    untouched image and from an empty background list: subtraction and
    record both depend on the option. *)
Theorem background_tweak_only_when_enabled
        (doSmooth : bool) (sigma : option float) (doClearMask : bool)
        (expId : option Z) (st s1 : State) (psf : Psf) (seed : Z)
        (bgLevel factor : float) :
  getPsf ext (exposure st) sigma = Ok psf ->
  fst (compute_seed ext expId st) = Ok seed ->
  preliminary_phase ext config psf doSmooth seed st = (Ok (bgLevel, factor), s1) ->
  detectFootprints ext config doSmooth sigma doClearMask expId st
  = if doBackgroundTweak config then
      final_pass ext config psf doSmooth doClearMask factor
        [constant_background (getBBox (exposure s1)) bgLevel]
        (mkState
           (set_image (exposure s1) (isub_scalar (exposure s1) bgLevel))
           (log s1 ++ [mkLog INFO "Tweaking background by %f to match sky photometry"
                         [ArgFloat bgLevel]])
           (calls s1))
    else final_pass ext config psf doSmooth doClearMask factor [] s1.
Proof.
  intros Hpsf Hseed Hprelim.
  rewrite detectFootprints_cases, Hpsf, Hseed.
  unfold bind at 1. rewrite Hprelim.
  unfold after_preliminary, bind. cbn [fst snd].
  rewrite background_tweak_run.
  destruct (doBackgroundTweak config); reflexivity.
Qed.

End DetectClaims.

Lemma py_int_nan (x : float) : Np.isnan x = true -> py_int x = Raise ValueError.
Proof. intros H. unfold py_int. now rewrite (isnan_class x H). Qed.

Lemma py_int_infinity (x : float) :
  is_infinity x = true -> py_int x = Raise OverflowError.
Proof.
  intros H. destruct (is_infinity_class x H) as [s Hs].
  unfold py_int. now rewrite Hs.
Qed.



(* ===================================================================== *)
(** ** detectFootprints: what a run sees of the sampler *)
(* ===================================================================== *)


Section SamplerAtSeed.

Context {Psf Middle : Type}.
Variable ext : Collaborators Psf Middle.
Variable config : DynamicDetectionConfig.
Variable sampler : list (list Z) -> Z -> result (list Footprint).
Variable seed : Z.
Hypothesis same_at_seed : forall m, sampler m seed = skyObjects_run ext m seed.




End SamplerAtSeed.


(* ===================================================================== *)
(** ** Worked runs of detectFootprints *)
(* ===================================================================== *)

(** [int()] truncates towards zero and rejects NaN and the infinities. *)
Example py_int_values :
  py_int 318%float = Ok 318 /\ py_int 2.75%float = Ok 2
  /\ py_int (-2.75)%float = Ok (-2) /\ py_int 0.5%float = Ok 0
  /\ py_int nan = Raise ValueError /\ py_int infinity = Raise OverflowError.
Proof. repeat split; reflexivity. Qed.

(** A run of the preliminary pass in which [finalizeFootprints] marks the
    mask and then fails: the body leaves the marked mask, the phase hands the
    snapshot back, and the error reaches the caller. *)
Example failing_finalize_run :
  mask (exposure
          (snd (preliminary_body
                  (Example.collaborators_with Example.mark_then_fail
                     (Example.sky_footprints 13) Example.thirteen)
                  Example.default_config tt true 5 Example.state0)))
  = [[0; 0; 32]; [0; 0; 1]]
  /\ detectFootprints
       (Example.collaborators_with Example.mark_then_fail
          (Example.sky_footprints 13) Example.thirteen)
       Example.default_config true None true (Some 5) Example.state0
     = (Raise (UpstreamError "finalizeFootprints"), Example.state0).
Proof. split; vm_compute; reflexivity. Qed.

Lemma sampler_sees_preliminary_mask_witness :
  sampler_calls Example.state0
    (snd (detectFootprints
            (Example.collaborators (Example.sky_footprints 13) Example.thirteen)
            Example.default_config true None true (Some 5) Example.state0))
  = [([[0; 0; 32]; [0; 0; 1]], 5)]
  /\ mask (exposure
             (snd (preliminary_phase
                     (Example.collaborators (Example.sky_footprints 13)
                        Example.thirteen)
                     Example.default_config tt true 5 Example.state0)))
     = mask (exposure Example.state0).
Proof.
  apply (sampler_sees_preliminary_mask
           (Example.collaborators (Example.sky_footprints 13) Example.thirteen)
           Example.default_config true None true (Some 5) Example.state0 tt 5
           [[0; 0; 0]; [0; 0; 1]] [[0; 0; 32]; [0; 0; 1]]
           ([[1; 2; 300]; [4; 5; 6]]%float, 2%float)
           (mkDetResults (Some [mkFootprint [(0, 2, 2)] []]) None 1 0 None)
           (mkDetResults (Some [mkFootprint [(0, 2, 2)] []]) None 1 0 None));
    vm_compute; reflexivity.
Defined.

(** C4 as stated fails: on a 2x3 exposure whose mask has a stale DETECTED
    bit at pixel (0,1) and whose pixel (0,2) is bright, the sampler is handed
    a mask whose detection bits are those of the preliminary pass (pixel
    (0,2)), not those the mask had when the preliminary pass began. *)
Lemma sampler_mask_counterexample :
  sampler_calls Example.state0
    (snd (detectFootprints
            (Example.collaborators (Example.sky_footprints 13) Example.thirteen)
            Example.default_config true None true (Some 5) Example.state0))
  = [([[0; 0; 32]; [0; 0; 1]], 5)]
  /\ detected_bits Example.detected [[0; 0; 32]; [0; 0; 1]]
     = [[0; 0; 32]; [0; 0; 0]]
  /\ detected_bits Example.detected (mask (exposure Example.state0))
     = [[0; 32; 0]; [0; 0; 0]]
  /\ same_mask (detected_bits Example.detected [[0; 0; 32]; [0; 0; 1]])
       (detected_bits Example.detected (mask (exposure Example.state0)))
     = false.
Proof. repeat split; vm_compute; reflexivity. Qed.

Lemma preliminary_phase_restores_mask_witness :
  mask (exposure
          (snd (preliminary_phase
                  (Example.collaborators_with Example.mark_then_fail
                     (Example.sky_footprints 13) Example.thirteen)
                  Example.default_config tt true 5 Example.state0)))
  = mask (exposure Example.state0)
  /\ fst (preliminary_phase
            (Example.collaborators_with Example.mark_then_fail
               (Example.sky_footprints 13) Example.thirteen)
            Example.default_config tt true 5 Example.state0)
     = fst (preliminary_body
              (Example.collaborators_with Example.mark_then_fail
                 (Example.sky_footprints 13) Example.thirteen)
              Example.default_config tt true 5 Example.state0)
  /\ detectFootprints
       (Example.collaborators_with Example.mark_then_fail
          (Example.sky_footprints 13) Example.thirteen)
       Example.default_config true None true (Some 5) Example.state0
     = match fst (preliminary_phase
                    (Example.collaborators_with Example.mark_then_fail
                       (Example.sky_footprints 13) Example.thirteen)
                    Example.default_config tt true 5 Example.state0) with
       | Ok r =>
           after_preliminary
             (Example.collaborators_with Example.mark_then_fail
                (Example.sky_footprints 13) Example.thirteen)
             Example.default_config tt true true r
             (snd (preliminary_phase
                     (Example.collaborators_with Example.mark_then_fail
                        (Example.sky_footprints 13) Example.thirteen)
                     Example.default_config tt true 5 Example.state0))
       | Raise e =>
           (Raise e,
            snd (preliminary_phase
                   (Example.collaborators_with Example.mark_then_fail
                      (Example.sky_footprints 13) Example.thirteen)
                   Example.default_config tt true 5 Example.state0))
       end.
Proof.
  apply (preliminary_phase_restores_mask
           (Example.collaborators_with Example.mark_then_fail
              (Example.sky_footprints 13) Example.thirteen)
           Example.default_config true None true (Some 5) Example.state0 tt 5);
    reflexivity.
Defined.

(** C6 as stated fails: with [doBackgroundTweak] off, a run whose threshold
    calculation finds the offset 6 returns an empty background list and
    leaves the image as it was; no term records the offset. *)
Lemma background_not_recorded_counterexample :
  doBackgroundTweak Example.no_tweak_config = false
  /\ fst (preliminary_phase
            (Example.collaborators (Example.sky_footprints 13) Example.thirteen)
            Example.no_tweak_config tt true 318 Example.state0)
     = Ok (6%float, 1%float)
  /\ fst (detectFootprints
            (Example.collaborators (Example.sky_footprints 13) Example.thirteen)
            Example.no_tweak_config true None true None Example.state0)
     = Ok (mkDetResults (Some [mkFootprint [(0, 2, 2)] []]) None 1 0 (Some []))
  /\ image (exposure
              (snd (detectFootprints
                      (Example.collaborators (Example.sky_footprints 13)
                         Example.thirteen)
                      Example.no_tweak_config true None true None Example.state0)))
     = image Example.exposure0.
Proof. repeat split; vm_compute; reflexivity. Qed.

Lemma background_tweak_only_when_enabled_witness :
  detectFootprints
    (Example.collaborators (Example.sky_footprints 13) Example.thirteen)
    Example.no_tweak_config true None true None Example.state0
  = final_pass
      (Example.collaborators (Example.sky_footprints 13) Example.thirteen)
      Example.no_tweak_config tt true true 1%float []
      (mkState Example.exposure0
         [mkLog INFO "Modifying configured detection threshold by factor %f to %f"
            [ArgFloat 1; ArgFloat 5]]
         (calls (after_measurement
                   (Example.collaborators (Example.sky_footprints 13)
                      Example.thirteen)
                   318 (Example.sky_footprints 13)
                   (mkState (set_mask Example.exposure0 [[0; 0; 32]; [0; 0; 1]])
                      [] [])))).
Proof.
  apply (background_tweak_only_when_enabled
           (Example.collaborators (Example.sky_footprints 13) Example.thirteen)
           Example.no_tweak_config true None true None Example.state0
           (mkState Example.exposure0
              [mkLog INFO "Modifying configured detection threshold by factor %f to %f"
                 [ArgFloat 1; ArgFloat 5]]
              (calls (after_measurement
                        (Example.collaborators (Example.sky_footprints 13)
                           Example.thirteen)
                        318 (Example.sky_footprints 13)
                        (mkState (set_mask Example.exposure0 [[0; 0; 32]; [0; 0; 1]])
                           [] []))))
           tt 318 6%float 1%float);
    vm_compute; reflexivity.
Defined.

(** With the tweak on, the same run subtracts 6 from every pixel and
    returns the one-term list. *)
Example background_tweak_enabled_run :
  fst (detectFootprints
         (Example.collaborators (Example.sky_footprints 13) Example.thirteen)
         Example.default_config true None true None Example.state0)
  = Ok (mkDetResults (Some [mkFootprint [(0, 2, 2)] []]) None 1 0
          (Some [mkBgData
                   (mkBackgroundMI (mkBBox 0 0 3 2) [[(6%float, 0, 6%float)]])
                   LINEAR REDUCE_INTERP_ORDER UNKNOWN 0 0 false]))
  /\ image (exposure
              (snd (detectFootprints
                      (Example.collaborators (Example.sky_footprints 13)
                         Example.thirteen)
                      Example.default_config true None true None Example.state0)))
     = [[-5; -4; 294]; [-2; -1; 0]]%float.
Proof. split; vm_compute; reflexivity. Qed.

(** The tweak in single and in double precision: 0.1 is subtracted from
    the single-precision pixel nearest to 0.3 as the single-precision value
    nearest to 0.1 and the difference is rounded to single precision; in a
    double-precision image neither is rounded. The statistics image of the
    constant term is in single precision in both cases, and the log has the
    level as it was passed. *)
Example tweakBackground_precision :
  tweakBackground 0.1 (Some []) (one_pixel_state PixelF)
  = (Ok (mkBackgroundMI (mkBBox 0 0 1 1)
           [[(0.10000000149011612%float, 0, 0.10000000149011612%float)]],
         Some [constant_background (mkBBox 0 0 1 1) 0.1]),
     mkState
       (mkExposure [[0.20000001788139343%float]] [[0]] (mkBBox 0 0 1 1) PixelF)
       [mkLog INFO "Tweaking background by %f to match sky photometry"
          [ArgFloat 0.1]]
       [])
  /\ tweakBackground 0.1 (Some []) (one_pixel_state PixelD)
     = (Ok (mkBackgroundMI (mkBBox 0 0 1 1)
              [[(0.10000000149011612%float, 0, 0.10000000149011612%float)]],
            Some [constant_background (mkBBox 0 0 1 1) 0.1]),
        mkState
          (mkExposure [[0.20000001192092895%float]] [[0]] (mkBBox 0 0 1 1) PixelD)
          [mkLog INFO "Tweaking background by %f to match sky photometry"
             [ArgFloat 0.1]]
          []).
Proof. split; vm_compute; reflexivity. Qed.

(** Conversion to single precision: rounding to nearest with ties to even,
    overflow to infinity, gradual underflow, zeros and NaN kept. *)
Example to_single_values :
  to_single 0.1 = 0.10000000149011612%float
  /\ to_single 16777217 = 16777216%float
  /\ to_single 16777219 = 16777220%float
  /\ to_single 1e39 = infinity
  /\ to_single 1e-45 = 1.4012984643248171e-45%float
  /\ to_single 1e-46 = 0%float
  /\ to_single (-0) = (-0)%float
  /\ to_single nan = nan
  /\ to_single 1.5 = 1.5%float.
Proof. repeat split; vm_compute; reflexivity. Qed.


(** The seed of the two kinds of run on the example exposure, whose pixels
    sum to 318. *)
Example seed_values :
  fst (compute_seed
         (Example.collaborators (Example.sky_footprints 13) Example.thirteen)
         None Example.state0) = Ok 318
  /\ fst (compute_seed
            (Example.collaborators (Example.sky_footprints 13) Example.thirteen)
            (Some (2 ^ 31 + 4)) Example.state0) = Ok 5
  /\ fst (compute_seed
            (Example.collaborators (Example.sky_footprints 13) Example.thirteen)
            (Some (-1)) Example.state0) = Ok (2 ^ 31 - 2).
Proof. repeat split; vm_compute; reflexivity. Qed.


(* ===================================================================== *)
(** ** convert_refcat_to_nJy: renaming sigma fields *)
(* ===================================================================== *)

Section Strip.

Import RefcatConvert.
Local Open Scope string_scope.

Variable chars : string.

Lemma lstrip_all (s : string) : all_in chars s = true -> lstrip chars s = "".
Proof.
  induction s as [|c t IH]; simpl; [reflexivity|].
  intros H. apply andb_true_iff in H as [Hc Ht]. rewrite Hc. auto.
Qed.

Lemma rstrip_all (s : string) : all_in chars s = true -> rstrip chars s = "".
Proof.
  induction s as [|c t IH]; simpl; [reflexivity|].
  intros H. apply andb_true_iff in H as [Hc Ht]. rewrite (IH Ht), Hc.
  reflexivity.
Qed.

Lemma rstrip_app_all (p suf : string) :
  all_in chars suf = true -> rstrip chars (p ++ suf) = rstrip chars p.
Proof.
  intros Hsuf. induction p as [|c t IH]; simpl.
  - now apply rstrip_all.
  - now rewrite IH.
Qed.

Lemma lstrip_app (p suf : string) :
  lstrip chars (p ++ suf)
  = match lstrip chars p with
    | EmptyString => lstrip chars suf
    | String c r => String c r ++ suf
    end.
Proof.
  induction p as [|c t IH]; simpl; [reflexivity|].
  destruct (in_chars c chars); [exact IH | reflexivity].
Qed.

(** Stripping ignores a suffix made of characters of the set. *)
Lemma py_strip_app_all (p suf : string) :
  all_in chars suf = true -> py_strip (p ++ suf) chars = py_strip p chars.
Proof.
  intros Hsuf. unfold py_strip. rewrite lstrip_app.
  destruct (lstrip chars p) as [|c r].
  - now rewrite (lstrip_all suf Hsuf).
  - now apply rstrip_app_all.
Qed.

Lemma length_lstrip (s : string) :
  (String.length (lstrip chars s) <= String.length s)%nat.
Proof.
  induction s as [|c t IH]; simpl; [lia|].
  destruct (in_chars c chars); simpl; lia.
Qed.

Lemma length_rstrip (s : string) :
  (String.length (rstrip chars s) <= String.length s)%nat.
Proof.
  induction s as [|c t IH]; simpl; [lia|].
  destruct (rstrip chars t) as [|d r]; simpl in *.
  - destruct (in_chars c chars); simpl; lia.
  - lia.
Qed.

Lemma length_py_strip (s : string) :
  (String.length (py_strip s chars) <= String.length s)%nat.
Proof.
  unfold py_strip.
  pose proof (length_rstrip (lstrip chars s)). pose proof (length_lstrip s). lia.
Qed.

End Strip.

Section Suffix.

Import RefcatConvert.
Local Open Scope string_scope.

Lemma endswith_app (p suf : string) : endswith (p ++ suf) suf = true.
Proof.
  induction p as [|c t IH]; simpl.
  - destruct suf; simpl; rewrite ?Ascii.eqb_refl, ?String.eqb_refl; reflexivity.
  - rewrite IH.
    match goal with |- (if ?b then _ else _) = _ => destruct b end; reflexivity.
Qed.

Lemma length_append (p s : string) :
  String.length (p ++ s) = (String.length p + String.length s)%nat.
Proof. induction p as [|c t IH]; simpl; [reflexivity | now rewrite IH]. Qed.

Lemma substring_prefix (p s : string) :
  String.substring 0 (String.length p) (p ++ s) = p.
Proof.
  induction p as [|c t IH]; simpl.
  - destruct s; reflexivity.
  - now rewrite IH.
Qed.

Lemma eqb_length_neq (a b : string) :
  String.length a <> String.length b -> String.eqb a b = false.
Proof.
  intros H. apply String.eqb_neq. intros ->. now apply H.
Qed.

Lemma new_name_sigma (p : string) :
  new_name (p ++ "_fluxSigma") = py_strip p "_fluxSigma" ++ "_fluxErr".
Proof.
  unfold new_name. rewrite endswith_app.
  now rewrite py_strip_app_all by reflexivity.
Qed.

Lemma replace_trailing_token_sigma (p : string) :
  replace_trailing_token (p ++ "_fluxSigma") = p ++ "_fluxErr".
Proof.
  unfold replace_trailing_token. rewrite length_append.
  replace (String.length p + String.length "_fluxSigma"
           - String.length "_fluxSigma")%nat with (String.length p) by lia.
  now rewrite substring_prefix.
Qed.

(** C8: renaming a field whose name ends in [_fluxSigma] strips the
    character set [{_, f, l, u, x, S, i, g, m, a}] from both ends of the
    whole name instead of removing the trailing token: the new name of
    [p ++ "_fluxSigma"] is [p] stripped of that set, followed by [_fluxErr].
    So whenever the prefix [p] ends or begins with a character of the set,
    the produced name differs from [p ++ "_fluxErr"], the name that replacing
    only the trailing token gives; ["gaia_fluxSigma"] becomes ["_fluxErr"]. *)
Theorem fluxSigma_rename_strips_character_set :
  (forall p,
      new_name (p ++ "_fluxSigma") = py_strip p "_fluxSigma" ++ "_fluxErr"
      /\ replace_trailing_token (p ++ "_fluxSigma") = p ++ "_fluxErr")
  /\ (forall p c,
         in_chars c "_fluxSigma" = true ->
         String.eqb (new_name ((p ++ String c "") ++ "_fluxSigma"))
                    (replace_trailing_token ((p ++ String c "") ++ "_fluxSigma"))
         = false)
  /\ (forall p c,
         in_chars c "_fluxSigma" = true ->
         String.eqb (new_name (String c p ++ "_fluxSigma"))
                    (replace_trailing_token (String c p ++ "_fluxSigma"))
         = false)
  /\ endswith "gaia_fluxSigma" "_fluxSigma" = true
  /\ new_name "gaia_fluxSigma" = "_fluxErr"
  /\ replace_trailing_token "gaia_fluxSigma" = "gaia_fluxErr".
Proof.
  split; [intros p; split; [apply new_name_sigma | apply replace_trailing_token_sigma]|].
  split.
  { intros p c Hc.
    rewrite new_name_sigma, replace_trailing_token_sigma.
    rewrite py_strip_app_all by (unfold all_in; now rewrite Hc).
    apply eqb_length_neq. rewrite !length_append.
    pose proof (length_py_strip "_fluxSigma" p). simpl. lia. }
  split.
  { intros p c Hc.
    change (String c p ++ "_fluxSigma") with (String c (p ++ "_fluxSigma")).
    change (String c (p ++ "_fluxSigma")) with (String c p ++ "_fluxSigma").
    rewrite new_name_sigma, replace_trailing_token_sigma.
    apply eqb_length_neq. rewrite !length_append.
    unfold py_strip. cbn [lstrip]. rewrite Hc.
    pose proof (length_rstrip "_fluxSigma" (lstrip "_fluxSigma" p)).
    pose proof (length_lstrip "_fluxSigma" p). simpl. lia. }
  repeat split; reflexivity.
Qed.

Lemma fluxSigma_rename_strips_character_set_witness :
  String.eqb (new_name (("mag" ++ String "g" "") ++ "_fluxSigma"))
             (replace_trailing_token (("mag" ++ String "g" "") ++ "_fluxSigma"))
  = false.
Proof.
  apply (proj1 (proj2 fluxSigma_rename_strips_character_set) "mag" "g"%char).
  reflexivity.
Defined.

End Suffix.

(* ===================================================================== *)
(** ** convert_refcat_to_nJy: the write phase *)
(* ===================================================================== *)

Section WritePhase.

Import RefcatConvert.

Lemma existsb_name_false (out : list Field) (name : string) :
  ~ In name (map getName out) ->
  existsb (fun g => String.eqb (getName g) name) out = false.
Proof.
  induction out as [|g out IH]; simpl; [reflexivity|].
  intros H. rewrite IH by tauto.
  destruct (String.eqb_spec (getName g) name) as [Heq|]; [|reflexivity].
  exfalso. apply H. now left.
Qed.

(** Without a clash of output names the loop maps every field in turn. *)
Lemma add_mappings_all (schema out : list Field)
      (mapped_fluxes : list (string * string)) :
  NoDup (map getName (out ++ map (fun f => fst (map_field f)) schema)) ->
  add_mappings out mapped_fluxes schema
  = Ok (out ++ map (fun f => fst (map_field f)) schema,
        mapped_fluxes ++ flat_map (fun f => snd (map_field f)) schema).
Proof.
  revert out mapped_fluxes.
  induction schema as [|f rest IH]; intros out mapped Hnd; simpl.
  - now rewrite !app_nil_r.
  - rewrite existsb_name_false.
    + rewrite IH.
      * now rewrite <- !app_assoc.
      * rewrite <- app_assoc. exact Hnd.
    + simpl in Hnd. rewrite map_app in Hnd. simpl in Hnd.
      apply NoDup_remove_2 in Hnd. intros Hin. apply Hnd.
      apply in_or_app. now left.
Qed.

Lemma mapped_fluxes_nonempty (schema : list Field) :
  existsb passes_flux_check schema = true ->
  flat_map (fun f => snd (map_field f)) schema <> [].
Proof.
  induction schema as [|f rest IH]; simpl; [discriminate|].
  unfold passes_flux_check at 1, map_field at 1.
  destruct (is_flux_field (getUnits f) (getName f) (getUnits f)); simpl.
  - discriminate.
  - exact IH.
Qed.

Lemma write_output_columns (catalog : Catalog) :
  write_output (map (fun f => fst (map_field f)) (map fst catalog)) catalog
  = map convert_column catalog.
Proof.
  unfold write_output.
  induction catalog as [|[f col] rest IH]; simpl; [reflexivity|].
  rewrite IH. unfold convert_column at 2. simpl.
  destruct (scaled_name (getName (fst (map_field f)))); reflexivity.
Qed.

(** C10: when the output names do not clash and at least one field is
    remapped, the write phase rewrites the file with every column whose
    output name ends in [_flux] or [_fluxErr] multiplied by [1e9] and every
    other column copied; a column whose name ends in [_flux] or [_fluxErr]
    but whose units fail the check is not remapped, keeps its field (name,
    documentation and units) and has its values multiplied by [1e9] all the
    same. *)
Theorem write_phase_scales_by_name (filename : string) (catalog : Catalog) :
  NoDup (map (fun fc => getName (fst (map_field (fst fc)))) catalog) ->
  existsb passes_flux_check (map fst catalog) = true ->
  (exists status,
      process_one filename catalog true
      = Ok (status, Some (map convert_column catalog)))
  /\ Forall (fun out : Field * list float =>
               exists col,
                 In (fst out, col)
                    (map (fun fc => (fst (map_field (fst fc)), snd fc)) catalog)
                 /\ snd out
                    = if endswith (getName (fst out)) "_flux"
                         || endswith (getName (fst out)) "_fluxErr"
                      then map (fun v => (v * 1e9)%float) col
                      else col)
            (map convert_column catalog)
  /\ (forall field col,
         In (field, col) catalog ->
         passes_flux_check field = false ->
         endswith (getName field) "_flux" || endswith (getName field) "_fluxErr"
         = true ->
         In (field, map (fun v => (v * 1e9)%float) col)
            (map convert_column catalog)).
Proof.
  intros Hnd Hflux. split; [|split].
  - unfold process_one.
    rewrite add_mappings_all.
    + simpl. rewrite write_output_columns.
      pose proof (mapped_fluxes_nonempty (map fst catalog) Hflux) as Hne.
      destruct (flat_map (fun f => snd (map_field f)) (map fst catalog))
        as [|x l]; [now destruct Hne|].
      eexists. reflexivity.
    + simpl. rewrite !map_map. exact Hnd.
  - apply Forall_forall. intros out Hin.
    apply in_map_iff in Hin as ([f col] & <- & Hin).
    exists col. split.
    + apply in_map_iff. exists (f, col). split; [reflexivity | exact Hin].
    + reflexivity.
  - intros field col Hin Hcheck Hname.
    apply in_map_iff. exists (field, col). split; [|exact Hin].
    unfold convert_column, map_field. simpl.
    unfold passes_flux_check in Hcheck. rewrite Hcheck. simpl.
    unfold scaled_name. now rewrite Hname.
Qed.

Lemma write_phase_scales_by_name_witness :
  (exists status,
      process_one "cat.fits" sample true
      = Ok (status, Some (map convert_column sample)))
  /\ In (mkField "r_flux" "r flux" "mJy", [3e9; 4e9]%float)
        (map convert_column sample)
  /\ In (mkField "r_fluxSigma" "r flux sigma" "mJy", [0.5; 0.25]%float)
        (map convert_column sample).
Proof.
  assert (Hnd : NoDup (map (fun fc => getName (fst (map_field (fst fc)))) sample)).
  { vm_compute.
    repeat (constructor;
            [simpl; intros H;
             repeat (destruct H as [H|H]; [discriminate H|]); exact H|]).
    constructor. }
  destruct (write_phase_scales_by_name "cat.fits" sample Hnd eq_refl)
    as (Hrun & _ & Hfail).
  split; [exact Hrun|]. split.
  - apply (Hfail (mkField "r_flux" "r flux" "mJy") [3; 4]%float).
    + simpl. tauto.
    + reflexivity.
    + reflexivity.
  - vm_compute. tauto.
Defined.

End WritePhase.


(** The other paths of [process_one]: nothing to map, no write requested,
    and two sigma fields that are renamed to the same name. *)
Example process_one_paths :
  RefcatConvert.process_one "cat.fits"
    [(RefcatConvert.mkField "id" "identifier" "", [1]%float);
     (RefcatConvert.mkField "r_flux" "r flux" "mJy", [3]%float)] true
  = Ok (["Reading: cat.fits"; "No fluxes to map: not writing."]%string, None)
  /\ RefcatConvert.process_one "cat.fits" RefcatConvert.sample false
     = Ok (["Reading: cat.fits";
            "Found flux fields: g_flux, 'Jy'; gaia_fluxSigma, 'Jy'"]%string, None)
  /\ RefcatConvert.process_one "cat.fits"
       [(RefcatConvert.mkField "a_fluxSigma" "a" "Jy", [1]%float);
        (RefcatConvert.mkField "g_fluxSigma" "g" "Jy", [2]%float)] true
     = Raise (InvalidParameterError "_fluxErr").
Proof. repeat split; reflexivity. Qed.

(* ===================================================================== *)
(** ** convert_refcat_to_nJy: what a run does and does not do *)
(* ===================================================================== *)

Section Conversion.

Import RefcatConvert.

Lemma NoDup_snoc {A : Type} (l : list A) (a : A) :
  NoDup l -> ~ In a l -> NoDup (l ++ [a]).
Proof.
  induction l as [|b l IH]; simpl; intros Hnd Hin.
  - constructor; [intros [] | constructor].
  - inversion Hnd as [|? ? Hb Hl]; subst. constructor.
    + intros H. apply in_app_or in H as [H|[H|[]]]; [now apply Hb|].
      subst. apply Hin. now left.
    + apply IH; [exact Hl | tauto].
Qed.

(** What a successful loop returns, and that it leaves distinct names. *)
Lemma add_mappings_inv (schema out : list Field)
      (mapped_fluxes : list (string * string)) (o : list Field)
      (m : list (string * string)) :
  add_mappings out mapped_fluxes schema = Ok (o, m) ->
  o = out ++ map (fun f => fst (map_field f)) schema
  /\ m = mapped_fluxes ++ flat_map (fun f => snd (map_field f)) schema
  /\ (NoDup (map getName out) -> NoDup (map getName o)).
Proof.
  revert out mapped_fluxes.
  induction schema as [|f rest IH]; intros out mapped H; simpl in H.
  - injection H as <- <-. now rewrite !app_nil_r.
  - destruct (existsb (fun g => String.eqb (getName g) (getName (fst (map_field f))))
                out) eqn:Hex; [discriminate|].
    destruct (IH _ _ H) as (Ho & Hm & Hnd).
    split; [|split].
    + rewrite Ho. simpl. now rewrite <- app_assoc.
    + rewrite Hm. simpl. now rewrite <- app_assoc.
    + intros Hout. apply Hnd. rewrite map_app. simpl.
      apply NoDup_snoc; [exact Hout|].
      intros Hin. apply in_map_iff in Hin as (g & Hg & Hin).
      assert (Hcontra : existsb (fun g => String.eqb (getName g)
                                            (getName (fst (map_field f)))) out
                        = true).
      { apply existsb_exists. exists g. split; [exact Hin|].
        rewrite Hg. apply String.eqb_refl. }
      rewrite Hcontra in Hex. discriminate.
Qed.

Lemma flux_check_of_mapped (schema : list Field) :
  flat_map (fun f => snd (map_field f)) schema <> [] ->
  existsb passes_flux_check schema = true.
Proof.
  induction schema as [|f rest IH]; simpl; [intros H; now destruct H|].
  unfold passes_flux_check at 1, map_field at 1.
  destruct (is_flux_field (getUnits f) (getName f) (getUnits f)); simpl.
  - reflexivity.
  - exact IH.
Qed.

(** A field that the loop has output never passes the flux check again:
    a remapped field has units [nJy], the others failed the check already. *)
Lemma output_field_fails_check (f : Field) :
  passes_flux_check (fst (map_field f)) = false.
Proof.
  unfold map_field.
  destruct (is_flux_field (getUnits f) (getName f) (getUnits f)) eqn:Hf; simpl.
  - unfold passes_flux_check, is_flux_field. simpl. apply andb_false_r.
  - exact Hf.
Qed.

Lemma map_field_fixed (g : Field) :
  passes_flux_check g = false -> map_field g = (g, []).
Proof.
  unfold passes_flux_check, map_field. intros ->. reflexivity.
Qed.

(** The name of a remapped field ends in [_flux] or [_fluxErr]. *)
Lemma remapped_name_scaled (f : Field) :
  passes_flux_check f = true -> scaled_name (new_name (getName f)) = true.
Proof.
  unfold passes_flux_check, is_flux_field, scaled_name, new_name.
  intros H. apply andb_true_iff in H as [Hname _].
  destruct (endswith (getName f) "_fluxSigma") eqn:Hsigma.
  - rewrite endswith_app. apply orb_true_r.
  - rewrite orb_false_r in Hname. exact Hname.
Qed.

(** What [process_one] returns when it rewrites the file. *)
Lemma process_one_written (filename : string) (catalog : Catalog) (write : bool)
      (status : list string) (out : Catalog) :
  process_one filename catalog write = Ok (status, Some out) ->
  write = true
  /\ existsb passes_flux_check (map fst catalog) = true
  /\ out = map convert_column catalog
  /\ NoDup (map (fun fc => getName (fst (map_field (fst fc)))) catalog)
  /\ status
     = ["Reading: " ++ filename;
        "Found flux fields: "
        ++ String.concat "; "
             (map (fun nu : string * string => fst nu ++ ", '" ++ snd nu ++ "'")
                  (flat_map (fun f => snd (map_field f)) (map fst catalog)));
        "Wrote: " ++ filename]%string.
Proof.
  unfold process_one. intros H.
  destruct (add_mappings [] [] (map fst catalog)) as [[o m]|e] eqn:Hadd;
    [|discriminate].
  destruct (add_mappings_inv _ _ _ _ _ Hadd) as (Ho & Hm & Hnd).
  simpl in Ho, Hm. subst o m.
  destruct (flat_map (fun f => snd (map_field f)) (map fst catalog))
    as [|x l] eqn:Hmapped; [discriminate|].
  destruct write; [|discriminate].
  injection H as <- <-.
  split; [reflexivity|]. split.
  { apply flux_check_of_mapped. rewrite Hmapped. discriminate. }
  split; [apply write_output_columns|]. split.
  { specialize (Hnd (NoDup_nil _)). rewrite !map_map in Hnd. exact Hnd. }
  reflexivity.
Qed.

(** X1: a file is rewritten only when the write flag is set and at least
    one field passes the flux check; the status then begins with the
    [Reading] line and ends with the [Wrote] line, and the content written is
    the converted catalogue. *)
Theorem process_one_writes_only_on_request
        (filename : string) (catalog : Catalog) (write : bool)
        (status : list string) (out : Catalog) :
  process_one filename catalog write = Ok (status, Some out) ->
  write = true
  /\ existsb passes_flux_check (map fst catalog) = true
  /\ out = map convert_column catalog
  /\ hd EmptyString status = ("Reading: " ++ filename)%string
  /\ last status EmptyString = ("Wrote: " ++ filename)%string.
Proof.
  intros H.
  destruct (process_one_written _ _ _ _ _ H) as (Hw & Hflux & Hout & _ & Hst).
  repeat split; try assumption; rewrite Hst; reflexivity.
Qed.

(** X2: converting is idempotent: run again on the content it wrote, with
    or without the write flag, [process_one] finds no flux to map and writes
    nothing, so no value is scaled twice. *)
Theorem process_one_second_run_maps_nothing
        (filename : string) (catalog : Catalog) (status : list string)
        (out : Catalog) (filename' : string) (write' : bool) :
  process_one filename catalog true = Ok (status, Some out) ->
  process_one filename' out write'
  = Ok (["Reading: " ++ filename'; "No fluxes to map: not writing."]%string, None).
Proof.
  intros H.
  destruct (process_one_written _ _ _ _ _ H) as (_ & _ & Hout & Hnd & _).
  subst out. unfold process_one.
  assert (Hfst : map fst (map convert_column catalog)
                 = map (fun fc => fst (map_field (fst fc))) catalog).
  { rewrite map_map. reflexivity. }
  rewrite Hfst.
  assert (Hmap : map (fun f => fst (map_field f))
                     (map (fun fc => fst (map_field (fst fc))) catalog)
                 = map (fun fc => fst (map_field (fst fc))) catalog).
  { rewrite map_map. apply map_ext. intros fc.
    now rewrite (map_field_fixed _ (output_field_fails_check (fst fc))). }
  assert (Hnone : flat_map (fun f => snd (map_field f))
                           (map (fun fc => fst (map_field (fst fc))) catalog)
                  = []).
  { clear. induction catalog as [|fc rest IH]; simpl; [reflexivity|].
    rewrite (map_field_fixed _ (output_field_fails_check (fst fc))). exact IH. }
  rewrite add_mappings_all.
  - simpl. rewrite Hnone. reflexivity.
  - simpl. rewrite Hmap, map_map. exact Hnd.
Qed.

(** X3: a field that passes the flux check comes out with units [nJy], its
    documentation, a name that ends in [_flux] or [_fluxErr], and every value
    multiplied by [1e9]: for a remapped column the units and the values
    always change together. *)
Theorem process_one_remapped_column
        (filename : string) (catalog : Catalog) (status : list string)
        (out : Catalog) (field : Field) (col : list float) :
  process_one filename catalog true = Ok (status, Some out) ->
  In (field, col) catalog ->
  passes_flux_check field = true ->
  In (mkField (new_name (getName field)) (getDoc field) "nJy",
      map (fun v => (v * 1e9)%float) col) out
  /\ (endswith (new_name (getName field)) "_flux"
      || endswith (new_name (getName field)) "_fluxErr") = true.
Proof.
  intros H Hin Hpass.
  destruct (process_one_written _ _ _ _ _ H) as (_ & _ & Hout & _).
  subst out. split; [|exact (remapped_name_scaled field Hpass)].
  apply in_map_iff. exists (field, col). split; [|exact Hin].
  unfold convert_column, map_field. simpl.
  unfold passes_flux_check in Hpass. rewrite Hpass. simpl.
  now rewrite (remapped_name_scaled field Hpass).
Qed.

(** X4: the conversion keeps the shape of the catalogue: the output has one
    column per input column, in order, each with its documentation and its
    number of rows; and a column whose name ends in none of [_flux],
    [_fluxErr], [_fluxSigma] is copied as it is, field and values. *)
Theorem process_one_keeps_shape
        (filename : string) (catalog : Catalog) (status : list string)
        (out : Catalog) :
  process_one filename catalog true = Ok (status, Some out) ->
  Forall2 (fun fc oc : Field * list float =>
             getDoc (fst oc) = getDoc (fst fc)
             /\ List.length (snd oc) = List.length (snd fc)
             /\ (endswith (getName (fst fc)) "_flux"
                 || endswith (getName (fst fc)) "_fluxSigma"
                 || endswith (getName (fst fc)) "_fluxErr" = false ->
                 oc = fc))
          catalog out.
Proof.
  intros H.
  destruct (process_one_written _ _ _ _ _ H) as (_ & _ & Hout & _).
  subst out. clear H.
  induction catalog as [|[f col] rest IH]; simpl; constructor; [|exact IH].
  unfold convert_column, map_field. simpl.
  destruct (is_flux_field (getUnits f) (getName f) (getUnits f)) eqn:Hf; simpl.
  - split; [reflexivity|]. split.
    + destruct (scaled_name (new_name (getName f))); simpl;
        [apply length_map | reflexivity].
    + intros Hname. unfold is_flux_field in Hf. rewrite Hname in Hf.
      discriminate.
  - split; [reflexivity|]. split.
    + destruct (scaled_name (getName f)); simpl; [apply length_map | reflexivity].
    + intros Hname. unfold scaled_name.
      apply orb_false_iff in Hname as [Hname Herr].
      apply orb_false_iff in Hname as [Hflux _].
      rewrite Hflux, Herr. reflexivity.
Qed.

End Conversion.

Lemma process_one_sample_run :
  RefcatConvert.process_one "cat.fits" RefcatConvert.sample true
  = Ok (["Reading: cat.fits";
         "Found flux fields: g_flux, 'Jy'; gaia_fluxSigma, 'Jy'";
         "Wrote: cat.fits"]%string,
        Some (map RefcatConvert.convert_column RefcatConvert.sample)).
Proof. reflexivity. Qed.

Lemma process_one_writes_only_on_request_witness :
  true = true
  /\ existsb RefcatConvert.passes_flux_check (map fst RefcatConvert.sample) = true
  /\ map RefcatConvert.convert_column RefcatConvert.sample
     = map RefcatConvert.convert_column RefcatConvert.sample
  /\ hd EmptyString
        ["Reading: cat.fits";
         "Found flux fields: g_flux, 'Jy'; gaia_fluxSigma, 'Jy'";
         "Wrote: cat.fits"]%string
     = ("Reading: " ++ "cat.fits")%string
  /\ last ["Reading: cat.fits";
           "Found flux fields: g_flux, 'Jy'; gaia_fluxSigma, 'Jy'";
           "Wrote: cat.fits"]%string EmptyString
     = ("Wrote: " ++ "cat.fits")%string.
Proof.
  apply (process_one_writes_only_on_request "cat.fits" RefcatConvert.sample true).
  reflexivity.
Defined.

Lemma process_one_second_run_maps_nothing_witness :
  RefcatConvert.process_one "again.fits"
    (map RefcatConvert.convert_column RefcatConvert.sample) true
  = Ok (["Reading: " ++ "again.fits"; "No fluxes to map: not writing."]%string,
        None).
Proof.
  apply (process_one_second_run_maps_nothing "cat.fits" RefcatConvert.sample
           ["Reading: cat.fits";
            "Found flux fields: g_flux, 'Jy'; gaia_fluxSigma, 'Jy'";
            "Wrote: cat.fits"]%string).
  reflexivity.
Defined.

Lemma process_one_remapped_column_witness :
  In (RefcatConvert.mkField
        (RefcatConvert.new_name
           (RefcatConvert.getName (RefcatConvert.mkField "g_flux" "g flux" "Jy")))
        (RefcatConvert.getDoc (RefcatConvert.mkField "g_flux" "g flux" "Jy"))
        "nJy",
      map (fun v => (v * 1e9)%float) [1.5; 2]%float)
     (map RefcatConvert.convert_column RefcatConvert.sample)
  /\ (RefcatConvert.endswith
        (RefcatConvert.new_name
           (RefcatConvert.getName (RefcatConvert.mkField "g_flux" "g flux" "Jy")))
        "_flux"
      || RefcatConvert.endswith
           (RefcatConvert.new_name
              (RefcatConvert.getName (RefcatConvert.mkField "g_flux" "g flux" "Jy")))
           "_fluxErr") = true.
Proof.
  apply (process_one_remapped_column "cat.fits" RefcatConvert.sample
           ["Reading: cat.fits";
            "Found flux fields: g_flux, 'Jy'; gaia_fluxSigma, 'Jy'";
            "Wrote: cat.fits"]%string
           (map RefcatConvert.convert_column RefcatConvert.sample)
           (RefcatConvert.mkField "g_flux" "g flux" "Jy") [1.5; 2]%float).
  - reflexivity.
  - simpl. tauto.
  - reflexivity.
Defined.

Lemma process_one_keeps_shape_witness :
  Forall2 (fun fc oc : RefcatConvert.Field * list float =>
             RefcatConvert.getDoc (fst oc) = RefcatConvert.getDoc (fst fc)
             /\ List.length (snd oc) = List.length (snd fc)
             /\ (RefcatConvert.endswith (RefcatConvert.getName (fst fc)) "_flux"
                 || RefcatConvert.endswith (RefcatConvert.getName (fst fc))
                      "_fluxSigma"
                 || RefcatConvert.endswith (RefcatConvert.getName (fst fc))
                      "_fluxErr" = false ->
                 oc = fc))
          RefcatConvert.sample
          (map RefcatConvert.convert_column RefcatConvert.sample).
Proof.
  apply (process_one_keeps_shape "cat.fits" RefcatConvert.sample
           ["Reading: cat.fits";
            "Found flux fields: g_flux, 'Jy'; gaia_fluxSigma, 'Jy'";
            "Wrote: cat.fits"]%string).
  reflexivity.
Defined.

(* ===================================================================== *)
(** ** convert_refcat_to_nJy: when the renaming is exact *)
(* ===================================================================== *)

Section ExactRename.

Import RefcatConvert.
Local Open Scope string_scope.

Variable chars : string.

Lemma lstrip_fixed (p : string) :
  begins_in chars p = false -> lstrip chars p = p.
Proof. destruct p as [|c t]; simpl; [reflexivity|]. now intros ->. Qed.

Lemma rstrip_fixed (p : string) :
  ends_in chars p = false -> rstrip chars p = p.
Proof.
  induction p as [|c t IH]; [reflexivity|].
  destruct t as [|d u].
  - simpl. now intros ->.
  - intros H. change (ends_in chars (String c (String d u)))
      with (ends_in chars (String d u)) in H.
    change (rstrip chars (String c (String d u)))
      with (match rstrip chars (String d u) with
            | EmptyString =>
                if in_chars c chars then EmptyString else String c EmptyString
            | String e r => String c (String e r)
            end).
    rewrite (IH H). reflexivity.
Qed.

Lemma lstrip_shrinks (p : string) :
  begins_in chars p = true ->
  (String.length (lstrip chars p) < String.length p)%nat.
Proof.
  destruct p as [|c t]; simpl; [discriminate|]. intros ->.
  pose proof (length_lstrip chars t). lia.
Qed.

Lemma rstrip_shrinks (p : string) :
  ends_in chars p = true ->
  (String.length (rstrip chars p) < String.length p)%nat.
Proof.
  induction p as [|c t IH]; [discriminate|].
  destruct t as [|d u].
  - simpl. intros ->. simpl. lia.
  - intros H. change (ends_in chars (String c (String d u)))
      with (ends_in chars (String d u)) in H.
    specialize (IH H).
    change (rstrip chars (String c (String d u)))
      with (match rstrip chars (String d u) with
            | EmptyString =>
                if in_chars c chars then EmptyString else String c EmptyString
            | String e r => String c (String e r)
            end).
    destruct (rstrip chars (String d u)) as [|e r].
    + destruct (in_chars c chars); simpl; lia.
    + simpl in *. lia.
Qed.

(** Stripping leaves [p] alone exactly when neither end of [p] is in the
    set; otherwise it shortens [p]. *)
Lemma py_strip_fixed_or_shorter (p : string) :
  if begins_in chars p || ends_in chars p
  then (String.length (py_strip p chars) < String.length p)%nat
  else py_strip p chars = p.
Proof.
  unfold py_strip.
  destruct (begins_in chars p) eqn:Hb; simpl.
  - pose proof (lstrip_shrinks p Hb).
    pose proof (length_rstrip chars (lstrip chars p)). lia.
  - rewrite (lstrip_fixed p Hb).
    destruct (ends_in chars p) eqn:He.
    + now apply rstrip_shrinks.
    + now apply rstrip_fixed.
Qed.

End ExactRename.

(** X5: the renaming of a [_fluxSigma] field is the exact replacement of
    the trailing token by [_fluxErr] if and only if the rest of the name
    neither begins nor ends with one of the characters
    [_ f l u x S i g m a]. *)
Theorem new_name_exact_iff_clean_ends (p : string) :
  String.eqb (RefcatConvert.new_name (p ++ "_fluxSigma"))
             (RefcatConvert.replace_trailing_token (p ++ "_fluxSigma"))
  = negb (begins_in "_fluxSigma" p || ends_in "_fluxSigma" p).
Proof.
  rewrite new_name_sigma, replace_trailing_token_sigma.
  pose proof (py_strip_fixed_or_shorter "_fluxSigma" p) as H.
  destruct (begins_in "_fluxSigma" p || ends_in "_fluxSigma" p); simpl.
  - apply eqb_length_neq. rewrite !length_append. lia.
  - rewrite H. apply String.eqb_refl.
Qed.

(* ===================================================================== *)
(** ** More IEEE facts *)
(* ===================================================================== *)

(** Subtracting [+0] changes nothing, not even the sign of a zero. *)
Lemma sub_zero (v : float) : (v - 0)%float = v.
Proof.
  apply Prim2SF_inj. rewrite FloatAxioms.sub_spec.
  change (Prim2SF 0%float) with (S754_zero false).
  unfold SF64sub.
  destruct (Prim2SF v) as [s| s| |s m e]; try reflexivity.
  destruct s; reflexivity.
Qed.

(** A quotient whose numerator is NaN is NaN. *)
Lemma div_nan_l (x : float) : (nan / x)%float = nan.
Proof.
  apply Prim2SF_inj. rewrite FloatAxioms.div_spec.
  change (Prim2SF nan) with S754_nan. reflexivity.
Qed.

(** Subtracting zero from an image leaves each pixel as its pixel type
    holds it. *)
Lemma isub_scalar_zero (e : Exposure) :
  isub_scalar e 0 = map (map (round_pixel (pixelType e))) (image e).
Proof.
  unfold isub_scalar.
  assert (Hz : round_pixel (pixelType e) 0 = 0%float)
    by (destruct (pixelType e); reflexivity).
  rewrite Hz.
  apply map_ext. intros row. apply map_ext. intros v. now rewrite sub_zero.
Qed.

(** Converting the pixels of a well-typed image to its pixel type changes
    nothing. *)
Lemma round_well_typed (e : Exposure) :
  well_typed_pixels e = true ->
  set_image e (map (map (round_pixel (pixelType e))) (image e)) = e.
Proof.
  unfold well_typed_pixels, set_image. intros H.
  assert (Him : map (map (round_pixel (pixelType e))) (image e) = image e).
  { induction (image e) as [|row im IH]; simpl in *; [reflexivity|].
    apply andb_true_iff in H as [Hrow Him]. rewrite (IH Him). f_equal.
    clear IH Him. induction row as [|v row IH]; simpl in *; [reflexivity|].
    apply andb_true_iff in Hrow as [Hv Hrow]. rewrite (IH Hrow).
    apply Leibniz.eqb_spec in Hv. now rewrite Hv. }
  rewrite Him. destruct e; reflexivity.
Qed.

(* ===================================================================== *)
(** ** calculateThreshold: which records count *)
(* ===================================================================== *)

Lemma good_count_le_length (catalog : list SourceRecord) :
  good_count catalog <= Z.of_nat (List.length catalog).
Proof.
  unfold good_count, filtered. apply inj_le.
  induction catalog as [|r l IH]; simpl; [lia|].
  destruct (is_good r); simpl; lia.
Qed.

Lemma median_with_nan (a : list float) :
  existsb Np.isnan a = true -> Np.median a = nan.
Proof. intros H. unfold Np.median. now rewrite H. Qed.

(** A catalogue that holds a usable record with some further property
    has a usable record. *)
Lemma good_exists_positive (Q : SourceRecord -> bool) (catalog : list SourceRecord) :
  (forall r, Q r = true -> is_good r = true) ->
  existsb Q catalog = true -> 0 < good_count catalog.
Proof.
  intros HQ. unfold good_count, filtered.
  induction catalog as [|r l IH]; simpl; [discriminate|].
  destruct (is_good r) eqn:Hr; simpl; [lia|].
  destruct (Q r) eqn:Hq; [|exact IH].
  apply HQ in Hq. congruence.
Qed.

Lemma nan_error_in_filtered (catalog : list SourceRecord) :
  existsb (fun r => is_good r && Np.isnan (base_PsfFlux_instFluxErr r)) catalog
  = true ->
  existsb Np.isnan (map base_PsfFlux_instFluxErr (filtered catalog)) = true.
Proof.
  unfold filtered.
  induction catalog as [|r l IH]; simpl; [discriminate|].
  destruct (is_good r); simpl.
  - destruct (Np.isnan (base_PsfFlux_instFluxErr r)); simpl; [reflexivity | exact IH].
  - exact IH.
Qed.

(** X6: the statistics read the filtered records only: two catalogues
    with the same usable records, whatever flagged or non-finite records
    they hold besides and wherever, give the same correction and the same
    log. *)
Theorem threshold_reads_filtered_only
        (config : DynamicDetectionConfig) (c1 c2 : list SourceRecord)
        (st : State) :
  filtered c1 = filtered c2 ->
  threshold_from_catalog config c1 st = threshold_from_catalog config c2 st.
Proof.
  intros H.
  assert (Hcount : good_count c1 = good_count c2)
    by (unfold good_count; now rewrite H).
  destruct (Z.lt_ge_cases (good_count c1) (minNumSources config)) as [Hlt|Hge].
  - rewrite (threshold_from_catalog_insufficient config c1 st Hlt).
    rewrite Hcount in Hlt.
    rewrite (threshold_from_catalog_insufficient config c2 st Hlt).
    now rewrite Hcount.
  - destruct (Z.lt_ge_cases 0 (good_count c1)) as [Hpos|Hzero].
    + rewrite (threshold_from_catalog_enough config c1 st Hge Hpos).
      rewrite Hcount in Hge, Hpos.
      rewrite (threshold_from_catalog_enough config c2 st Hge Hpos).
      unfold code_correction, multiplicative_term, median_error, robust_stdev,
        additive_term.
      now rewrite H.
    + pose proof (good_count_nonneg c1) as Hnn.
      assert (Hz : good_count c1 = 0) by lia.
      rewrite (threshold_from_catalog_empty config c1 st Hge Hz).
      rewrite Hcount in Hge, Hz.
      now rewrite (threshold_from_catalog_empty config c2 st Hge Hz).
Qed.

Lemma threshold_reads_filtered_only_witness :
  threshold_from_catalog Example.default_config
    (Example.measured (Example.sky_footprints 13) Example.five_good)
    Example.state0
  = threshold_from_catalog Example.default_config
      (firstn 5 (Example.measured (Example.sky_footprints 13) Example.five_good))
      Example.state0.
Proof.
  apply (threshold_reads_filtered_only Example.default_config
           (Example.measured (Example.sky_footprints 13) Example.five_good)
           (firstn 5 (Example.measured (Example.sky_footprints 13)
                        Example.five_good))
           Example.state0).
  reflexivity.
Defined.

(** X7: when the measured catalogue has fewer rows than [minNumSources],
    [calculateThreshold] returns the identity correction with its warning,
    whatever was measured. *)
Theorem calculateThreshold_few_rows
        (Psf Middle : Type) (ext : Collaborators Psf Middle)
        (config : DynamicDetectionConfig) (seed : Z) (sigma : option float)
        (st : State) (fps : list Footprint) (catalog : list SourceRecord) :
  skyObjects_run ext (mask (exposure st)) seed = Ok fps ->
  forallb one_peak fps = true ->
  skyMeasurement_run ext (sky_catalog ext (exposure st) fps) (exposure st)
  = Ok catalog ->
  Z.of_nat (List.length catalog) < minNumSources config ->
  fst (calculateThreshold ext config seed sigma st) = Ok (mkThreshold 1.0 0.0)
  /\ log (snd (calculateThreshold ext config seed sigma st))
     = log st ++ [insufficient_warning (good_count catalog) (minNumSources config)].
Proof.
  intros Hsky Hpeaks Hmeas Hlen.
  rewrite (calculateThreshold_measured ext config seed sigma st fps catalog
             Hsky Hpeaks Hmeas).
  pose proof (good_count_le_length catalog).
  rewrite threshold_from_catalog_insufficient by lia.
  split; reflexivity.
Qed.

Lemma calculateThreshold_few_rows_witness :
  fst (calculateThreshold
         (Example.collaborators (Example.sky_footprints 13)
            (firstn 9 Example.thirteen))
         Example.default_config 42 None Example.state0)
  = Ok (mkThreshold 1.0 0.0)
  /\ log (snd (calculateThreshold
                 (Example.collaborators (Example.sky_footprints 13)
                    (firstn 9 Example.thirteen))
                 Example.default_config 42 None Example.state0))
     = log Example.state0
       ++ [insufficient_warning
             (good_count (Example.measured (Example.sky_footprints 13)
                            (firstn 9 Example.thirteen)))
             (minNumSources Example.default_config)].
Proof.
  apply (calculateThreshold_few_rows unit (list (list float))
           (Example.collaborators (Example.sky_footprints 13)
              (firstn 9 Example.thirteen))
           Example.default_config 42 None Example.state0
           (Example.sky_footprints 13)
           (Example.measured (Example.sky_footprints 13)
              (firstn 9 Example.thirteen)));
    reflexivity.
Defined.

(** X8: the filter does not look at the flux uncertainty: when enough
    records pass it and one of them carries a NaN uncertainty,
    [calculateThreshold] returns NaN as the multiplicative factor. *)
Theorem calculateThreshold_nan_uncertainty
        (Psf Middle : Type) (ext : Collaborators Psf Middle)
        (config : DynamicDetectionConfig) (seed : Z) (sigma : option float)
        (st : State) (fps : list Footprint) (catalog : list SourceRecord) :
  skyObjects_run ext (mask (exposure st)) seed = Ok fps ->
  forallb one_peak fps = true ->
  skyMeasurement_run ext (sky_catalog ext (exposure st) fps) (exposure st)
  = Ok catalog ->
  minNumSources config <= good_count catalog ->
  existsb (fun r => is_good r && Np.isnan (base_PsfFlux_instFluxErr r)) catalog
  = true ->
  fst (calculateThreshold ext config seed sigma st)
  = Ok (mkThreshold nan (additive_term catalog)).
Proof.
  intros Hsky Hpeaks Hmeas Hmin Hnan.
  rewrite (calculateThreshold_measured ext config seed sigma st fps catalog
             Hsky Hpeaks Hmeas).
  pose proof Hnan as Hpos. apply (good_exists_positive _ catalog) in Hpos;
    [|intros r Hr; now apply andb_true_iff in Hr].
  rewrite threshold_from_catalog_enough by assumption.
  unfold code_correction, multiplicative_term, median_error. simpl.
  rewrite (median_with_nan _ (nan_error_in_filtered catalog Hnan)).
  now rewrite div_nan_l.
Qed.

Lemma calculateThreshold_nan_uncertainty_witness :
  fst (calculateThreshold
         (Example.collaborators (Example.sky_footprints 13) thirteen_one_nan)
         Example.default_config 42 None Example.state0)
  = Ok (mkThreshold nan
          (additive_term (Example.measured (Example.sky_footprints 13)
                            thirteen_one_nan))).
Proof.
  apply (calculateThreshold_nan_uncertainty unit (list (list float))
           (Example.collaborators (Example.sky_footprints 13) thirteen_one_nan)
           Example.default_config 42 None Example.state0
           (Example.sky_footprints 13)
           (Example.measured (Example.sky_footprints 13) thirteen_one_nan)).
  - reflexivity.
  - reflexivity.
  - reflexivity.
  - vm_compute. discriminate.
  - vm_compute. reflexivity.
Defined.

(* ===================================================================== *)
(** ** detectFootprints: a run with too few usable samples *)
(* ===================================================================== *)

Section InsufficientRun.

Context {Psf Middle : Type}.
Variable ext : Collaborators Psf Middle.
Variable config : DynamicDetectionConfig.

(** The preliminary phase of a run with too few usable sky measurements. *)
Lemma preliminary_phase_insufficient
      (psf : Psf) (doSmooth : bool) (seed : Z) (st : State)
      (m1 m2 : list (list Z)) (cr : Middle * float) (tr tr' : DetResults)
      (fps : list Footprint) (catalog : list SourceRecord) :
  clearMask ext (mask (exposure st)) = (m1, Ok tt) ->
  convolveImage ext (set_mask (exposure st) m1) psf doSmooth = Ok cr ->
  applyThreshold ext (fst cr) (getBBox (exposure st))
    (prelimThresholdFactor config) = Ok tr ->
  finalizeFootprints ext m1 tr (snd cr) (prelimThresholdFactor config)
  = (m2, Ok tr') ->
  skyObjects_run ext m2 seed = Ok fps ->
  forallb one_peak fps = true ->
  skyMeasurement_run ext (sky_catalog ext (set_mask (exposure st) m2) fps)
    (set_mask (exposure st) m2) = Ok catalog ->
  good_count catalog < minNumSources config ->
  preliminary_phase ext config psf doSmooth seed st
  = (Ok (0.0, 1.0)%float,
     mkState (exposure st)
       (log st
        ++ [insufficient_warning (good_count catalog) (minNumSources config);
            mkLog INFO "Modifying configured detection threshold by factor %f to %f"
              [ArgFloat 1.0; ArgFloat (1.0 * thresholdValue config)%float]])
       (calls st
        ++ [CallSkyObjects m2 seed;
            CallSkyMeasurement (sky_catalog ext (set_mask (exposure st) m2) fps)])).
Proof.
  intros Hclear Hconv Hthr Hfin Hsky Hpeaks Hmeas Hlt.
  rewrite preliminary_phase_finally.
  assert (Hbody :
            preliminary_body ext config psf doSmooth seed st
            = (Ok (0.0, 1.0)%float,
               mkState (set_mask (exposure st) m2)
                 (log st
                  ++ [insufficient_warning (good_count catalog)
                        (minNumSources config);
                      mkLog INFO
                        "Modifying configured detection threshold by factor %f to %f"
                        [ArgFloat 1.0; ArgFloat (1.0 * thresholdValue config)%float]])
                 (calls st
                  ++ [CallSkyObjects m2 seed;
                      CallSkyMeasurement
                        (sky_catalog ext (set_mask (exposure st) m2) fps)]))).
  { unfold preliminary_body.
    unfold bind at 1, on_mask at 1. rewrite Hclear.
    unfold bind at 1, get_exposure at 1. cbn [exposure].
    unfold bind at 1, lift at 1. rewrite Hconv.
    unfold bind at 1, lift at 1. cbn [getBBox set_mask]. rewrite Hthr.
    unfold bind at 1, on_mask at 1. cbn [exposure mask set_mask]. rewrite Hfin.
    unfold bind at 1.
    rewrite (calculateThreshold_measured ext config seed (Some (snd cr)) _
               fps catalog); [|exact Hsky|exact Hpeaks|exact Hmeas].
    rewrite threshold_from_catalog_insufficient by exact Hlt.
    unfold after_measurement, bind, emit, ret. cbn.
    rewrite <- !app_assoc. reflexivity. }
  rewrite Hbody. cbn [fst snd exposure log calls].
  destruct (exposure st); reflexivity.
Qed.

End InsufficientRun.

(** X10: when the preliminary steps succeed but fewer than [minNumSources]
    sky measurements are usable, the final pass of [detectFootprints] runs
    with the factor 1.0 on the mask as it was passed in and, with the
    background tweak off, on the pixels as they were passed in. With the
    tweak on, it subtracts 0.0 in the arithmetic of the pixel type, which
    leaves every pixel as the pixel type holds it, so that an exposure whose
    pixels are values of its pixel type is bit for bit as it was passed in;
    the tweak still appends its constant term of level 0.0. *)
Theorem detectFootprints_insufficient_samples
        (Psf Middle : Type) (ext : Collaborators Psf Middle)
        (config : DynamicDetectionConfig)
        (doSmooth : bool) (sigma : option float) (doClearMask : bool)
        (expId : option Z) (st : State) (psf : Psf) (seed : Z)
        (m1 m2 : list (list Z)) (cr : Middle * float) (tr tr' : DetResults)
        (fps : list Footprint) (catalog : list SourceRecord) :
  getPsf ext (exposure st) sigma = Ok psf ->
  fst (compute_seed ext expId st) = Ok seed ->
  clearMask ext (mask (exposure st)) = (m1, Ok tt) ->
  convolveImage ext (set_mask (exposure st) m1) psf doSmooth = Ok cr ->
  applyThreshold ext (fst cr) (getBBox (exposure st))
    (prelimThresholdFactor config) = Ok tr ->
  finalizeFootprints ext m1 tr (snd cr) (prelimThresholdFactor config)
  = (m2, Ok tr') ->
  skyObjects_run ext m2 seed = Ok fps ->
  forallb one_peak fps = true ->
  skyMeasurement_run ext (sky_catalog ext (set_mask (exposure st) m2) fps)
    (set_mask (exposure st) m2) = Ok catalog ->
  good_count catalog < minNumSources config ->
  let held :=
    set_image (exposure st)
      (map (map (round_pixel (pixelType (exposure st)))) (image (exposure st))) in
  (well_typed_pixels (exposure st) = true -> held = exposure st)
  /\ detectFootprints ext config doSmooth sigma doClearMask expId st
  = final_pass ext config psf doSmooth doClearMask 1.0
      (if doBackgroundTweak config
       then [constant_background (getBBox (exposure st)) 0.0]
       else [])
      (mkState (if doBackgroundTweak config then held else exposure st)
         ((log st
           ++ [insufficient_warning (good_count catalog) (minNumSources config);
               mkLog INFO
                 "Modifying configured detection threshold by factor %f to %f"
                 [ArgFloat 1.0; ArgFloat (1.0 * thresholdValue config)%float]])
          ++ (if doBackgroundTweak config
              then [mkLog INFO "Tweaking background by %f to match sky photometry"
                      [ArgFloat 0.0]]
              else []))
         (calls st
          ++ [CallSkyObjects m2 seed;
              CallSkyMeasurement
                (sky_catalog ext (set_mask (exposure st) m2) fps)])).
Proof.
  intros Hpsf Hseed Hclear Hconv Hthr Hfin Hsky Hpeaks Hmeas Hlt held.
  split; [apply round_well_typed|].
  rewrite detectFootprints_cases, Hpsf, Hseed.
  unfold bind at 1.
  rewrite (preliminary_phase_insufficient ext config psf doSmooth seed st
             m1 m2 cr tr tr' fps catalog Hclear Hconv Hthr Hfin Hsky Hpeaks
             Hmeas Hlt).
  unfold after_measurement, after_preliminary, bind. cbn [fst snd].
  rewrite background_tweak_run.
  destruct (doBackgroundTweak config).
  - cbn [exposure image log calls]. rewrite isub_scalar_zero. reflexivity.
  - now rewrite app_nil_r.
Qed.

Lemma detectFootprints_insufficient_samples_witness :
  detectFootprints
    (Example.collaborators (Example.sky_footprints 13) Example.five_good)
    Example.default_config true None true (Some 5) Example.state0
  = final_pass
      (Example.collaborators (Example.sky_footprints 13) Example.five_good)
      Example.default_config tt true true 1.0
      [constant_background (mkBBox 0 0 3 2) 0.0]
      (mkState Example.exposure0
         [insufficient_warning 5 10;
          mkLog INFO "Modifying configured detection threshold by factor %f to %f"
            [ArgFloat 1.0; ArgFloat 5];
          mkLog INFO "Tweaking background by %f to match sky photometry"
            [ArgFloat 0.0]]
         [CallSkyObjects [[0; 0; 32]; [0; 0; 1]] 5;
          CallSkyMeasurement
            (sky_catalog
               (Example.collaborators (Example.sky_footprints 13) Example.five_good)
               (set_mask Example.exposure0 [[0; 0; 32]; [0; 0; 1]])
               (Example.sky_footprints 13))]).
Proof.
  pose proof (detectFootprints_insufficient_samples unit (list (list float))
           (Example.collaborators (Example.sky_footprints 13) Example.five_good)
           Example.default_config true None true (Some 5) Example.state0 tt 5
           [[0; 0; 0]; [0; 0; 1]] [[0; 0; 32]; [0; 0; 1]]
           ([[1; 2; 300]; [4; 5; 6]]%float, 2%float)
           (mkDetResults (Some [mkFootprint [(0, 2, 2)] []]) None 1 0 None)
           (mkDetResults (Some [mkFootprint [(0, 2, 2)] []]) None 1 0 None)
           (Example.sky_footprints 13)
           (Example.measured (Example.sky_footprints 13) Example.five_good)
           eq_refl eq_refl eq_refl eq_refl eq_refl eq_refl eq_refl eq_refl eq_refl
           eq_refl)
    as [Hheld Hrun].
  rewrite Hrun. cbn [doBackgroundTweak Example.default_config].
  rewrite (Hheld eq_refl). reflexivity.
Defined.

(** X11: without an exposure identifier, an image whose pixel sum is NaN
    makes [detectFootprints] fail with [ValueError], and one whose sum is
    infinite with [OverflowError], before anything is detected, sampled,
    logged or written to the exposure. *)
Theorem detectFootprints_non_finite_sum
        (Psf Middle : Type) (ext : Collaborators Psf Middle)
        (config : DynamicDetectionConfig)
        (doSmooth : bool) (sigma : option float) (doClearMask : bool)
        (st : State) (psf : Psf) :
  getPsf ext (exposure st) sigma = Ok psf ->
  Np.isfinite (array_sum ext (image (exposure st))) = false ->
  detectFootprints ext config doSmooth sigma doClearMask None st
  = (Raise (if Np.isnan (array_sum ext (image (exposure st)))
            then ValueError else OverflowError), st).
Proof.
  intros Hpsf Hsum.
  rewrite detectFootprints_cases, Hpsf, compute_seed_run. cbn [fst].
  unfold Np.isfinite, is_finite in Hsum.
  apply negb_false_iff, orb_true_iff in Hsum.
  destruct (Np.isnan (array_sum ext (image (exposure st)))) eqn:Hnan.
  - now rewrite (py_int_nan _ Hnan).
  - destruct Hsum as [Hsum|Hinf].
    + unfold Np.isnan in Hnan. rewrite Hnan in Hsum. discriminate.
    + now rewrite (py_int_infinity _ Hinf).
Qed.

Lemma detectFootprints_non_finite_sum_witness :
  detectFootprints
    (Example.collaborators (Example.sky_footprints 13) Example.thirteen)
    Example.default_config true None true None nan_pixel_state
  = (Raise (if Np.isnan
                 (array_sum
                    (Example.collaborators (Example.sky_footprints 13)
                       Example.thirteen)
                    (image (exposure nan_pixel_state)))
            then ValueError else OverflowError),
     nan_pixel_state).
Proof.
  apply (detectFootprints_non_finite_sum unit (list (list float))
           (Example.collaborators (Example.sky_footprints 13) Example.thirteen)
           Example.default_config true None true nan_pixel_state tt);
    reflexivity.
Defined.

(** X12: exposure identifiers that differ by a multiple of [2^31 - 1] give
    the same seed, so [detectFootprints] cannot tell them apart: the two
    runs are equal. *)
Theorem detectFootprints_congruent_identifiers
        (Psf Middle : Type) (ext : Collaborators Psf Middle)
        (config : DynamicDetectionConfig)
        (doSmooth : bool) (sigma : option float) (doClearMask : bool)
        (i k : Z) (st : State) :
  detectFootprints ext config doSmooth sigma doClearMask
    (Some (i + k * (2 ^ 31 - 1))) st
  = detectFootprints ext config doSmooth sigma doClearMask (Some i) st.
Proof.
  rewrite !detectFootprints_cases, !compute_seed_run. cbn [fst].
  rewrite Z.mod_add by discriminate. reflexivity.
Qed.

(* ===================================================================== *)
(** ** tests/Measure_1.py: Object.insert and Object.__eq__ *)
(* ===================================================================== *)

Section MeasureHelpers.

Import MeasureTest.




(** Decimal numerals hold digits and a sign only. *)
Lemma in_chars_false_neq (c d : ascii) (s : string) :
  RefcatConvert.in_chars c s = false ->
  RefcatConvert.in_chars d s = true ->
  Ascii.eqb c d = false.
Proof.
  induction s as [|a s IH]; simpl; [discriminate|].
  intros Hc Hd. apply orb_false_iff in Hc as [Hca Hcs].
  apply orb_true_iff in Hd as [Hda|Hds].
  - apply Ascii.eqb_eq in Hda. now subst.
  - now apply IH.
Qed.

Lemma fmt_d_chars (z : Z) (c : ascii) :
  RefcatConvert.in_chars c "-0123456789" = false ->
  RefcatConvert.in_chars c (fmt_d z) = false.
Proof.
  intros Hc.
  assert (Hd : forall d, RefcatConvert.in_chars d "-0123456789" = true ->
                         Ascii.eqb c d = false)
    by (intros d; now apply in_chars_false_neq).
  assert (Hu : forall u, RefcatConvert.in_chars c (NilEmpty.string_of_uint u) = false).
  { induction u; cbn [NilEmpty.string_of_uint RefcatConvert.in_chars];
      [reflexivity|..]; rewrite IHu, Hd by reflexivity; reflexivity. }
  assert (Hz : forall u, RefcatConvert.in_chars c (NilZero.string_of_uint u) = false).
  { intros u. destruct u; try apply Hu.
    cbn. rewrite Hd by reflexivity. reflexivity. }
  unfold fmt_d, NilZero.string_of_int.
  destruct (Z.to_int z) as [u|u]; [apply Hz|].
  cbn [RefcatConvert.in_chars]. rewrite Hz, Hd by reflexivity. reflexivity.
Qed.

Lemma to_int_not_nil (z : Z) :
  Z.to_int z <> Decimal.Pos Decimal.Nil /\ Z.to_int z <> Decimal.Neg Decimal.Nil.
Proof.
  split; intros H; pose proof (DecimalZ.of_to z) as Hz; rewrite H in Hz;
    simpl in Hz; subst z; discriminate H.
Qed.

Lemma fmt_d_inj (a b : Z) : fmt_d a = fmt_d b -> a = b.
Proof.
  unfold fmt_d. intros H. apply DecimalZ.to_int_inj.
  assert (Hs : NilZero.int_of_string (NilZero.string_of_int (Z.to_int a))
               = NilZero.int_of_string (NilZero.string_of_int (Z.to_int b)))
    by now rewrite H.
  destruct (to_int_not_nil a), (to_int_not_nil b).
  rewrite !NilZero.isi in Hs by assumption.
  now injection Hs.
Qed.

(** Two strings that agree after their first [c] agree before it. *)
Lemma split_at (c : ascii) (u u' r r' : string) :
  RefcatConvert.in_chars c u = false ->
  RefcatConvert.in_chars c u' = false ->
  (u ++ String c r)%string = (u' ++ String c r')%string ->
  u = u' /\ r = r'.
Proof.
  revert u'. induction u as [|a u IH]; intros [|a' u'] Hu Hu' H; simpl in *.
  - now injection H.
  - injection H as -> _. now rewrite Ascii.eqb_refl in Hu'.
  - injection H as -> _. now rewrite Ascii.eqb_refl in Hu.
  - injection H as -> H.
    apply orb_false_iff in Hu as [_ Hu]. apply orb_false_iff in Hu' as [_ Hu'].
    destruct (IH u' Hu Hu' H) as [-> ->]. now split.
Qed.

(** The printed form of a span determines the span. *)
Lemma toString_inj (sp sp' : Z * Z * Z) : toString sp = toString sp' -> sp = sp'.
Proof.
  destruct sp as [[y a] b], sp' as [[y' a'] b']. unfold toString.
  cbn [append]. intros H.
  apply split_at in H as [Hy H]; try (apply fmt_d_chars; reflexivity).
  injection H as H.
  apply split_at in H as [Ha H]; try (apply fmt_d_chars; reflexivity).
  injection H as Hb.
  apply fmt_d_inj in Hy, Ha, Hb. now subst.
Qed.

(** X15: [Object.__eq__] holds exactly when the two span lists agree on
    their common length: it walks [zip(other.getSpans(), self.spans)], so
    spans that one side has beyond the other's are never compared. An object
    is thus equal to a footprint without spans and to every footprint whose
    spans extend or cut short its own. *)
Theorem Object_eq_compares_common_prefix
        (self : Object) (other_spans : list (Z * Z * Z)) :
  (Object_eq self other_spans = true
   <-> Forall (fun p : (Z * Z * Z) * (Z * Z * Z) => fst p = snd p)
         (combine other_spans (spans self)))
  /\ Object_eq self [] = true
  /\ (forall extra, Object_eq self (spans self ++ extra) = true)
  /\ (forall extra,
         Object_eq (mkObject (val self) (spans self ++ extra)) (spans self) = true).
Proof.
  assert (Hiff : forall l : list ((Z * Z * Z) * (Z * Z * Z)),
             forallb (fun p => String.eqb (toString (fst p)) (toString (snd p))) l
             = true
             <-> Forall (fun p => fst p = snd p) l).
  { intros l. rewrite forallb_forall, Forall_forall.
    split; intros H p Hp; specialize (H p Hp).
    - apply String.eqb_eq in H. now apply toString_inj.
    - rewrite H. apply String.eqb_refl. }
  assert (Hdiag : forall l extra : list (Z * Z * Z),
             Forall (fun p : (Z * Z * Z) * (Z * Z * Z) => fst p = snd p)
                    (combine (l ++ extra) l)
             /\ Forall (fun p : (Z * Z * Z) * (Z * Z * Z) => fst p = snd p)
                       (combine l (l ++ extra))).
  { intros l extra. induction l as [|a l [IH1 IH2]]; simpl.
    - split; [destruct extra|]; constructor.
    - split; constructor; auto. }
  split; [apply Hiff|]. split; [reflexivity|]. split.
  - intros extra. apply Hiff. apply Hdiag.
  - intros extra. apply Hiff. apply Hdiag.
Qed.

End MeasureHelpers.

Example toString_values :
  MeasureTest.toString (1, 4, 4) = "1: 4..4"%string
  /\ MeasureTest.toString (-3, 0, 12) = "-3: 0..12"%string.
Proof. split; reflexivity. Qed.

(** The image of [setUp] before the two extra counts are added. *)
Example setUp_pixels :
  let im := fold_left (fun im obj => MeasureTest.insert obj im)
                      MeasureTest.objects (fun _ _ => 0%float) in
  im 4 2 = 10%float /\ im 5 2 = 10%float /\ im 6 2 = 0%float
  /\ im 10 5 = 20%float /\ im 9 5 = 0%float /\ im 3 6 = 20%float.
Proof. repeat split; reflexivity. Qed.

(* ===================================================================== *)
(** ** calculateThreshold: a zero aperture area *)
(* ===================================================================== *)

Lemma div_zero_zero (x y : float) :
  (x =? 0)%float = true -> (y =? 0)%float = true -> (x / y)%float = nan.
Proof.
  intros Hx Hy.
  destruct (eqb_zero_class x Hx) as [sx Hsx].
  destruct (eqb_zero_class y Hy) as [sy Hsy].
  apply Prim2SF_inj. rewrite FloatAxioms.div_spec, Hsx, Hsy. reflexivity.
Qed.

Lemma nan_ratio_in_filtered (catalog : list SourceRecord) :
  existsb (fun r => is_good r
                    && (base_PsfFlux_instFlux r =? 0)%float
                    && (base_PsfFlux_area r =? 0)%float) catalog = true ->
  existsb Np.isnan (map flux_per_area (filtered catalog)) = true.
Proof.
  unfold filtered.
  induction catalog as [|r l IH]; simpl; [discriminate|].
  destruct (is_good r); simpl; [|exact IH].
  destruct ((base_PsfFlux_instFlux r =? 0)%float) eqn:Hf; simpl;
    [|intros H; rewrite (IH H); apply orb_true_r].
  destruct ((base_PsfFlux_area r =? 0)%float) eqn:Ha; simpl;
    [|intros H; rewrite (IH H); apply orb_true_r].
  intros _. unfold flux_per_area at 1. rewrite (div_zero_zero _ _ Hf Ha).
  reflexivity.
Qed.

(** X16: an aperture area of zero passes the filter (it is finite): when
    enough records pass and one of them has zero flux and zero area, the
    additive term that [calculateThreshold] returns is NaN. *)
Theorem calculateThreshold_zero_area
        (Psf Middle : Type) (ext : Collaborators Psf Middle)
        (config : DynamicDetectionConfig) (seed : Z) (sigma : option float)
        (st : State) (fps : list Footprint) (catalog : list SourceRecord) :
  skyObjects_run ext (mask (exposure st)) seed = Ok fps ->
  forallb one_peak fps = true ->
  skyMeasurement_run ext (sky_catalog ext (exposure st) fps) (exposure st)
  = Ok catalog ->
  minNumSources config <= good_count catalog ->
  existsb (fun r => is_good r
                    && (base_PsfFlux_instFlux r =? 0)%float
                    && (base_PsfFlux_area r =? 0)%float) catalog = true ->
  fst (calculateThreshold ext config seed sigma st)
  = Ok (mkThreshold (multiplicative_term 0.741 catalog) nan).
Proof.
  intros Hsky Hpeaks Hmeas Hmin Hzero.
  rewrite (calculateThreshold_measured ext config seed sigma st fps catalog
             Hsky Hpeaks Hmeas).
  pose proof Hzero as Hpos. apply (good_exists_positive _ catalog) in Hpos;
    [|intros r Hr; apply andb_true_iff in Hr as [Hr _];
      now apply andb_true_iff in Hr].
  rewrite threshold_from_catalog_enough by assumption.
  unfold code_correction, additive_term. simpl.
  now rewrite (median_with_nan _ (nan_ratio_in_filtered catalog Hzero)).
Qed.

Lemma calculateThreshold_zero_area_witness :
  fst (calculateThreshold
         (Example.collaborators (Example.sky_footprints 13) thirteen_zero_area)
         Example.default_config 42 None Example.state0)
  = Ok (mkThreshold
          (multiplicative_term 0.741
             (Example.measured (Example.sky_footprints 13) thirteen_zero_area))
          nan).
Proof.
  apply (calculateThreshold_zero_area unit (list (list float))
           (Example.collaborators (Example.sky_footprints 13) thirteen_zero_area)
           Example.default_config 42 None Example.state0
           (Example.sky_footprints 13)
           (Example.measured (Example.sky_footprints 13) thirteen_zero_area)).
  - reflexivity.
  - reflexivity.
  - reflexivity.
  - vm_compute. discriminate.
  - vm_compute. reflexivity.
Defined.
